(** * Customer clustering dashboard (app.py): a shallow embedding

    The script loads a customer table, fits a three-stage scikit-learn
    pipeline (column transformer, PCA, k-means), attaches the cluster labels
    to a copy of the table, serialises the pipeline and renders the chart
    selected in a Streamlit side bar.

    The script is modelled as a program in a state-and-exception monad over
    - a store of Python objects (data frames and estimators), addressed by
      location, so that aliasing between [pipeline] and [pipeline[:-1]] and
      the separation between [df] and [df.copy()] are explicit;
    - a trace of the observable effects (Streamlit calls, the joblib dump);
    - a log of the estimator fits.
    The numerical routines of scikit-learn are not part of the script: they
    are the operations of the class [Sklearn], and the documented shapes of
    their results are the class [SklearnShapes]. *)

From Stdlib Require Import ZArith Floats List Lia DecimalString.
From stdpp Require Import gmap strings list.

Open Scope string_scope.

(** ** Cells, arrays and data frames *)

(** A cell of a data frame: an integer of any size, a float64, or a
    Python string.  A missing value is the float [nan]. *)
Inductive cell :=
| CInt (z : Z)
| CFloat (x : float)
| CStr (s : string).

(** A two-dimensional numpy array of float64, of shape
    [(length rows, ncols)]: its rows, of [ncols] entries each, and its
    number of columns, which an array with no row has too. *)
Record ndarray := { rows :> list (list float); ncols : nat }.

(** The exceptions the script can meet. *)
Inductive exn :=
| FileNotFoundError (path : string)
| ValueError (msg : string)
| KeyError (key : string)
| IndexError
| AttributeError (attr : string)
| TypeError (msg : string).

(** The dtype of a column.  [read_csv] gives int64 to a column of
    integers that fit in 64 bits, float64 to a column of floats and object
    to any other column: strings, or integers beyond 64 bits. *)
Inductive dtype := int64 | int32 | uint64 | float64 | bool_ | object_.

(** The dtypes under [np.number]: what [select_dtypes("number")] keeps. *)
Definition is_number (t : dtype) : bool :=
  match t with
  | int64 | int32 | uint64 | float64 => true
  | bool_ | object_ => false
  end.

(** The dtype of a column after missing values are put in it. *)
Definition with_missing (t : dtype) : dtype :=
  match t with
  | int64 | int32 | uint64 | float64 => float64
  | bool_ | object_ => object_
  end.

(** A pandas DataFrame, column-wise: the length of its index, its columns
    in order, each a name and the values of the column, and
    [dataframe.dtypes], the dtype of each column by name. *)
Record DataFrame := {
  nrows : nat;
  series : list (string * list cell);
  dtypes : string -> dtype
}.

Definition set_dtype (name : string) (t : dtype) (ts : string -> dtype)
    : string -> dtype :=
  fun k => if String.eqb k name then t else ts k.

(** [dataframe.columns] *)
Definition columns (d : DataFrame) : list string := map fst (series d).

(** [name in dataframe.columns]; [None] is never a column label here. *)
Definition in_columns (name : option string) (d : DataFrame) : bool :=
  match name with
  | Some c => existsb (String.eqb c) (columns d)
  | None => false
  end.

Fixpoint assoc {A} (k : string) (l : list (string * A)) : option A :=
  match l with
  | [] => None
  | (k', v) :: l' => if String.eqb k k' then Some v else assoc k l'
  end.

(** [dataframe[name]]: the column, or KeyError. *)
Definition getitem (d : DataFrame) (name : string) : exn + list cell :=
  match assoc name (series d) with
  | Some col => inr col
  | None => inl (KeyError name)
  end.

(** Replace the column [name] where it stands, or append it. *)
Fixpoint set_series (name : string) (vals : list cell)
    (l : list (string * list cell)) : list (string * list cell) :=
  match l with
  | [] => [(name, vals)]
  | (k, v) :: l' =>
      if String.eqb name k then (k, vals) :: l'
      else (k, v) :: set_series name vals l'
  end.

(** [dataframe[name] = vals] for an array [vals] of dtype [t].  On a frame
    whose index is empty pandas takes the index from a non-empty [vals] and
    fills the existing columns with nan; otherwise the lengths must
    agree. *)
Definition setitem (d : DataFrame) (name : string) (t : dtype)
    (vals : list cell) : exn + DataFrame :=
  if (nrows d =? 0)%nat && negb (length vals =? 0)%nat then
    inr {| nrows := length vals;
           series := set_series name vals
                       (map (fun '(k, _) => (k, repeat (CFloat nan) (length vals)))
                            (series d));
           dtypes := set_dtype name t (fun k => with_missing (dtypes d k)) |}
  else if (length vals =? nrows d)%nat then
    inr {| nrows := nrows d; series := set_series name vals (series d);
           dtypes := set_dtype name t (dtypes d) |}
  else inl (ValueError "Length of values does not match length of index").

(** [pd.DataFrame(data, columns=names)] for a two-dimensional array: every
    row must have as many entries as there are names. *)
Definition DataFrame_of_array (data : ndarray) (names : list string)
    : exn + DataFrame :=
  if (ncols data =? length names)%nat
     && forallb (fun row => (length row =? length names)%nat) data then
    inr {| nrows := length data;
           series := imap (fun j name =>
                             (name, map (fun row => CFloat (nth j row nan)) data))
                          names;
           dtypes := fun _ => float64 |}
  else inl (ValueError "Shape of passed values does not match the columns").

Definition Z_to_float (z : Z) : float :=
  if (0 <=? z)%Z then PrimFloat.of_uint63 (Uint63.of_Z z)
  else PrimFloat.opp (PrimFloat.of_uint63 (Uint63.of_Z (- z))).

(** [cell == i] for a Python int [i], as numpy compares element-wise. *)
Definition cell_eq_int (i : Z) (c : cell) : bool :=
  match c with
  | CInt z => (z =? i)%Z
  | CFloat x => PrimFloat.eqb x (Z_to_float i)
  | CStr _ => false
  end.

Fixpoint mask_list {A} (mask : list bool) (l : list A) : list A :=
  match mask, l with
  | b :: mask', x :: l' => if b then x :: mask_list mask' l' else mask_list mask' l'
  | _, _ => []
  end.

(** [dataframe[mask]] for a boolean column [mask]: the rows where it holds. *)
Definition boolean_index (d : DataFrame) (mask : list bool) : DataFrame :=
  {| nrows := length (List.filter id mask);
     series := map (fun '(k, v) => (k, mask_list mask v)) (series d);
     dtypes := dtypes d |}.

(** [dataframe.select_dtypes("number")], iterated: the names of the columns
    whose dtype is numeric, in order. *)
Definition select_dtypes_number (d : DataFrame) : list string :=
  List.filter (fun name => is_number (dtypes d name)) (columns d).

Definition cell_to_float (c : cell) : option float :=
  match c with
  | CInt z => Some (Z_to_float z)
  | CFloat x => Some x
  | CStr _ => None
  end.

(** [np.asarray(dataframe, dtype=float)], as the estimators that take an
    array do to a frame they are given. *)
Definition to_numpy (d : DataFrame) : exn + ndarray :=
  match
    mapM (fun i => mapM (fun kv => cell_to_float (nth i (snd kv) (CFloat nan)))
                        (series d))
         (seq 0 (nrows d))
  with
  | Some rows => inr {| rows := rows; ncols := length (series d) |}
  | None => inl (ValueError "could not convert string to float")
  end.

(** [array[:, j]]: IndexError when the array has no column [j], whether
    or not it has rows. *)
Definition array_column (j : nat) (a : ndarray) : exn + list float :=
  if (j <? ncols a)%nat then
    match mapM (fun row => row !! j) a with
    | Some col => inr col
    | None => inl IndexError
    end
  else inl IndexError.

(** ** The scikit-learn interface *)

Inductive transformer := StandardScaler | OneHotEncoder.

(** The [transformers] argument of [ColumnTransformer]: name, transformer
    and the columns it applies to. *)
Definition transformers_spec := list (string * transformer * list string).

(** The fitted attributes of [KMeans] that the script reads. *)
Record kmeans_fitted := {
  labels_ : list Z;
  cluster_centers_ : ndarray
}.

(** The numerical routines the script delegates to.  Each is a function of
    its hyper-parameters, of the seed it is run with and of the data, and
    can raise. *)
Class Sklearn := {
  ct_fitted : Type;
  pca_fitted : Type;
  (** [ColumnTransformer(transformers).fit_transform(X)] *)
  ColumnTransformer_fit_transform :
    transformers_spec -> DataFrame -> exn + (ct_fitted * ndarray);
  (** [PCA(n_components, random_state=seed).fit_transform(X)] *)
  PCA_fit_transform : nat -> Z -> ndarray -> exn + (pca_fitted * ndarray);
  (** [KMeans(n_clusters, random_state=seed, n_init).fit(X)] *)
  KMeans_fit : nat -> Z -> nat -> ndarray -> exn + kmeans_fitted;
  (** [KMeans.transform(X)] of a fitted model *)
  KMeans_transform : kmeans_fitted -> ndarray -> ndarray
}.

(** The shapes scikit-learn documents for the results: one output row per
    input row, shape [(n_samples, n_components)] after PCA, one label in
    [[0, n_clusters)] per row and centres of shape
    [(n_clusters, n_features)] after k-means. *)
Class SklearnShapes (L : Sklearn) : Prop := {
  ColumnTransformer_rows : forall ts d f Xt,
    ColumnTransformer_fit_transform ts d = inr (f, Xt) ->
    length Xt = nrows d;
  PCA_shape : forall n seed X f Xt,
    PCA_fit_transform n seed X = inr (f, Xt) ->
    length Xt = length X /\ ncols Xt = n /\
    Forall (fun row => length row = n) Xt;
  KMeans_labels : forall k seed n_init X f,
    KMeans_fit k seed n_init X = inr f ->
    length (labels_ f) = length X /\
    Forall (fun z => (0 <= z < Z.of_nat k)%Z) (labels_ f);
  KMeans_centers : forall k seed n_init X f,
    KMeans_fit k seed n_init X = inr f ->
    length (cluster_centers_ f) = k /\
    ncols (cluster_centers_ f) = ncols X /\
    Forall (fun c => length c = ncols X) (cluster_centers_ f)
}.

(** ** Figures and observable effects *)

Inductive color :=
| palette_color (palette : string) (n_colors i : nat)
| named_color (name : string).

(** One call of [ax.scatter]. *)
Record scatter := {
  sc_xs : list cell;
  sc_ys : list cell;
  sc_zs : list cell;
  sc_color : color;
  sc_label : option string;
  sc_marker : option string;
  sc_s : option Z
}.

(** One call of [sns.boxplot]. *)
Record boxplot := {
  bp_data : DataFrame;
  bp_x : string;
  bp_y : string;
  bp_hue : string;
  bp_ax : nat;
  bp_palette : string * nat
}.

Inductive figure :=
| PairGrid (data : DataFrame) (diag_kind hue palette : string)
| Subplots (nrows_ ncols_ : nat) (figsize : Z * Z) (plots : list boxplot)
| Axes3D (figsize : Z * Z) (scatters : list scatter)
         (xlabel ylabel zlabel : string).

(** A location in the store of Python objects. *)
Abbreviation loc := nat (only parsing).

Section Script.
Context {L : Sklearn}.

Inductive estimator :=
| ColumnTransformer (transformers : transformers_spec) (fitted : option ct_fitted)
| PCA (n_components : nat) (random_state : option Z) (fitted : option pca_fitted)
| KMeans (n_clusters : nat) (random_state : option Z) (n_init : nat)
         (fitted : option kmeans_fitted).

Inductive object :=
| ODataFrame (d : DataFrame)
| OEstimator (e : estimator).

Inductive event :=
| st_markdown (body : string) (unsafe_allow_html : bool)
| environ_set (key value : string)
| joblib_dump (steps : list (string * estimator)) (filename : string)
| st_title (body : string)
| st_write (body : string)
| st_header (body : string)
| st_subheader (body : string)
| st_sidebar_selectbox (label : string) (options : list string)
| st_error (body : string)
| st_pyplot (fig : figure).

(** What a run meets outside: the csv files by path (already parsed), the
    state of numpy's global random generator, the index the user picked in
    the select box, and, for each path, the exception that opening it for
    writing raises, if any (FileNotFoundError when its directory is
    missing). *)
Record world := {
  files : gmap string DataFrame;
  np_random : Z;
  ui_choice : nat;
  write_error : string -> option exn
}.

Record state := {
  env : world;
  heap : list object;
  trace : list event;
  fit_log : list loc
}.

Definition initial (w : world) : state :=
  {| env := w; heap := []; trace := []; fit_log := [] |}.

(** ** The monad of the script: state, and exceptions that keep the state *)

Definition M (A : Type) : Type := state -> state * (exn + A).

#[export] Instance M_ret : MRet M := fun A a s => (s, inr a).

#[export] Instance M_bind : MBind M := fun A B f m s =>
  match m s with
  | (s', inr a) => f a s'
  | (s', inl e) => (s', inl e)
  end.

Definition raise {A} (e : exn) : M A := fun s => (s, inl e).

Definition lift {A} (r : exn + A) : M A := fun s => (s, r).

Definition gets {A} (f : state -> A) : M A := fun s => (s, inr (f s)).

Definition emit (e : event) : M unit := fun s =>
  ({| env := env s; heap := heap s; trace := trace s ++ [e];
      fit_log := fit_log s |}, inr tt).

Definition log_fit (l : loc) : M unit := fun s =>
  ({| env := env s; heap := heap s; trace := trace s;
      fit_log := fit_log s ++ [l] |}, inr tt).

Definition alloc (o : object) : M loc := fun s =>
  ({| env := env s; heap := heap s ++ [o]; trace := trace s;
      fit_log := fit_log s |}, inr (length (heap s))).

Definition deref (l : loc) : M object := fun s =>
  match heap s !! l with
  | Some o => (s, inr o)
  | None => (s, inl (TypeError "dangling reference"))
  end.

Definition store (l : loc) (o : object) : M unit := fun s =>
  ({| env := env s; heap := <[l := o]> (heap s); trace := trace s;
      fit_log := fit_log s |}, inr tt).

Definition get_frame (l : loc) : M DataFrame :=
  o ← deref l;
  match o with
  | ODataFrame d => mret d
  | OEstimator _ => raise (TypeError "not a DataFrame")
  end.

Definition get_estimator (l : loc) : M estimator :=
  o ← deref l;
  match o with
  | OEstimator e => mret e
  | ODataFrame _ => raise (TypeError "not an estimator")
  end.

(** ** pandas, scikit-learn and joblib calls on the store *)

(** [pd.read_csv(path)]: a new DataFrame object. *)
Definition pd_read_csv (path : string) : M loc := fun s =>
  match files (env s) !! path with
  | Some d => alloc (ODataFrame d) s
  | None => (s, inl (FileNotFoundError path))
  end.

(** [dataframe.copy()]: a new object with the same contents. *)
Definition DataFrame_copy (l : loc) : M loc :=
  d ← get_frame l;
  alloc (ODataFrame d).

(** [dataframe[name] = vals], in place. *)
Definition DataFrame_setitem (l : loc) (name : string) (t : dtype)
    (vals : list cell) : M unit :=
  d ← get_frame l;
  d' ← lift (setitem d name t vals);
  store l (ODataFrame d').

(** [pd.DataFrame(data, columns=names)]: a new object. *)
Definition pd_DataFrame (data : ndarray) (names : list string) : M loc :=
  d ← lift (DataFrame_of_array data names);
  alloc (ODataFrame d).

(** What flows between the steps of a pipeline. *)
Inductive data :=
| DFrame (d : DataFrame)
| DArray (a : ndarray).

Definition as_array (X : data) : M ndarray :=
  match X with
  | DFrame d => lift (to_numpy d)
  | DArray a => mret a
  end.

(** scikit-learn's [check_random_state]: an integer seeds a generator of
    its own, [None] falls back on numpy's global generator. *)
Definition check_random_state (random_state : option Z) : M Z :=
  match random_state with
  | Some seed => mret seed
  | None => gets (fun s => np_random (env s))
  end.

(** [estimator.fit_transform(X)]: fits the estimator object in place and
    returns the transformed data. *)
Definition fit_transform (l : loc) (X : data) : M ndarray :=
  e ← get_estimator l;
  log_fit l;;
  match e with
  | ColumnTransformer ts _ =>
      match X with
      | DFrame d =>
          '(f, Xt) ← lift (ColumnTransformer_fit_transform ts d);
          store l (OEstimator (ColumnTransformer ts (Some f)));;
          mret Xt
      | DArray _ =>
          raise (ValueError "columns given as strings need a dataframe")
      end
  | PCA n random_state _ =>
      a ← as_array X;
      seed ← check_random_state random_state;
      '(f, Xt) ← lift (PCA_fit_transform n seed a);
      store l (OEstimator (PCA n random_state (Some f)));;
      mret Xt
  | KMeans k random_state n_init _ =>
      a ← as_array X;
      seed ← check_random_state random_state;
      f ← lift (KMeans_fit k seed n_init a);
      store l (OEstimator (KMeans k random_state n_init (Some f)));;
      mret (KMeans_transform f a)
  end.

(** [estimator.fit(X)] *)
Definition fit (l : loc) (X : data) : M unit :=
  _ ← fit_transform l X;
  mret tt.

(** A [Pipeline]: its named steps, each a reference to an estimator
    object.  Slicing builds a new pipeline over the same objects. *)
Definition Pipeline := list (string * loc).

(** [Pipeline._fit]: fit and apply the given steps in order. *)
Fixpoint Pipeline__fit (steps : Pipeline) (X : data) : M data :=
  match steps with
  | [] => mret X
  | (_, t) :: steps' =>
      Xt ← fit_transform t X;
      Pipeline__fit steps' (DArray Xt)
  end.

(** [pipeline.fit(X)]: all steps but the last are fit and applied, the
    last one is fit. *)
Definition Pipeline_fit (p : Pipeline) (X : loc) : M unit :=
  d ← get_frame X;
  Xt ← Pipeline__fit (removelast p) (DFrame d);
  match last p with
  | Some (_, final) => fit final Xt
  | None => raise IndexError
  end.

(** [pipeline.fit_transform(X)] *)
Definition Pipeline_fit_transform (p : Pipeline) (X : loc) : M ndarray :=
  d ← get_frame X;
  Xt ← Pipeline__fit (removelast p) (DFrame d);
  match last p with
  | Some (_, final) => fit_transform final Xt
  | None => raise IndexError
  end.

(** [pipeline[name]] *)
Definition Pipeline_getitem (p : Pipeline) (name : string) : M loc :=
  match assoc name p with
  | Some l => mret l
  | None => raise (KeyError name)
  end.

(** [estimator.labels_], present once a [KMeans] has been fit. *)
Definition get_labels_ (l : loc) : M (list Z) :=
  e ← get_estimator l;
  match e with
  | KMeans _ _ _ (Some f) => mret (labels_ f)
  | _ => raise (AttributeError "labels_")
  end.

(** [estimator.cluster_centers_] *)
Definition get_cluster_centers_ (l : loc) : M ndarray :=
  e ← get_estimator l;
  match e with
  | KMeans _ _ _ (Some f) => mret (cluster_centers_ f)
  | _ => raise (AttributeError "cluster_centers_")
  end.

(** [joblib.dump(pipeline, filename)]: opens the file for writing, which
    can raise, and writes the steps as they are at the call. *)
Definition joblib_dump_pipeline (p : Pipeline) (filename : string) : M unit :=
  err ← gets (fun s => write_error (env s) filename);
  match err with
  | Some e => raise e
  | None =>
      steps ← mapM (fun '(name, l) => e ← get_estimator l; mret (name, e)) p;
      emit (joblib_dump steps filename)
  end.

(** [st.sidebar.selectbox(label, options)]: the option the user picked,
    the first one by default. *)
Definition st_sidebar_selectbox_get (label : string) (options : list string) : M string :=
  emit (st_sidebar_selectbox label options);;
  gets (fun s => nth (ui_choice (env s)) options (hd "" options)).

(** [l[i]] on a Python list *)
Definition py_index {A} (l : list A) (i : nat) : exn + A :=
  match l !! i with
  | Some x => inr x
  | None => inl IndexError
  end.

(** [str(n)] for a non-negative Python int *)
Definition str_nat (n : nat) : string := NilZero.string_of_uint (Nat.to_uint n).

(** [str(x)] for a column label that may be [None] *)
Definition py_str (x : option string) : string :=
  match x with
  | Some s => s
  | None => "None"
  end.

(** [dataframe[label]] for a label that may be [None] *)
Definition getitem_label (d : DataFrame) (label : option string) : exn + list cell :=
  match label with
  | Some c => getitem d c
  | None => inl (KeyError "None")
  end.

(** ** The script *)

Definition CSS : string := "
    <style>
    .main {
        background-color: #303030;
    }
    .sidebar .sidebar-content {
        background-color: #424242;
    }
    </style>
    ".

Definition DADOS : string := "dados/Mall_Customers_no_CustomerID.csv".
Definition RANDOM_STATE : Z := 42.
Definition MODELO : string := "modelos/pipeline_preprocessing_pca_clustering.pkl".

Definition preprocessing_transformers : transformers_spec :=
  [("standard", StandardScaler, ["Age"; "Annual Income (k$)"; "Spending Score (1-100)"]);
   ("onehot", OneHotEncoder, ["Gender"])].

(** The options of the select box, in order. *)
Definition opcoes : list string :=
  ["Pairplot"; "Boxplot por Cluster"; "Boxplot por Gênero";
   "Cluster em 3D (sem dispersão)"; "Cluster em 3D (com dispersão)"].

(** The module-level variables that the later parts of the script use. *)
Record globals := {
  df : loc;
  pipeline : Pipeline;
  df_clustered : loc
}.

(** Lines 30-71: load the table, build and fit the pipeline, label a copy
    of the table, save the fitted pipeline. *)
Definition setup : M globals :=
  emit (st_markdown CSS true);;
  emit (environ_set "OMP_NUM_THREADS" "1");;
  df ← pd_read_csv DADOS;
  preprocessing ← alloc (OEstimator (ColumnTransformer preprocessing_transformers None));
  pca ← alloc (OEstimator (PCA 3 (Some RANDOM_STATE) None));
  clustering ← alloc (OEstimator (KMeans 5 (Some RANDOM_STATE) 10 None));
  let pipeline := [("preprocessing", preprocessing); ("pca", pca);
                   ("clustering", clustering)] in
  Pipeline_fit pipeline df;;
  df_clustered ← DataFrame_copy df;
  km ← Pipeline_getitem pipeline "clustering";
  labels ← get_labels_ km;
  DataFrame_setitem df_clustered "cluster" int32 (map CInt labels);;
  joblib_dump_pipeline pipeline MODELO;;
  mret {| df := df; pipeline := pipeline; df_clustered := df_clustered |}.

(** Lines 74-91. *)
Definition visualizar_cluster (dataframe : loc) (colunas : list string)
    (quantidade_cores : nat) (centroids : option ndarray)
    (mostrar_pontos : bool) (coluna_clusters : option string) : M unit :=
  d ← get_frame dataframe;
  if negb (in_columns coluna_clusters d) then
    emit (st_error ("Coluna '" +:+ py_str coluna_clusters
                    +:+ "' não encontrada no dataframe."))
  else
    clusters ← mapM (fun i =>
      pontos ← (if mostrar_pontos then
                  col ← lift (getitem_label d coluna_clusters);
                  mret (boolean_index d (map (cell_eq_int (Z.of_nat i)) col))
                else mret d);
      c0 ← lift (py_index colunas 0);
      xs ← lift (getitem pontos c0);
      c1 ← lift (py_index colunas 1);
      ys ← lift (getitem pontos c1);
      c2 ← lift (py_index colunas 2);
      zs ← lift (getitem pontos c2);
      mret {| sc_xs := xs; sc_ys := ys; sc_zs := zs;
              sc_color := palette_color "Set2" quantidade_cores i;
              sc_label := Some ("Cluster " +:+ str_nat i);
              sc_marker := None; sc_s := None |})
      (seq 0 quantidade_cores);
    marks ← match centroids with
            | Some c =>
                xs ← lift (array_column 0 c);
                ys ← lift (array_column 1 c);
                zs ← lift (array_column 2 c);
                mret [{| sc_xs := map CFloat xs; sc_ys := map CFloat ys;
                         sc_zs := map CFloat zs;
                         sc_color := named_color "black"; sc_label := None;
                         sc_marker := Some "x"; sc_s := Some 200%Z |}]
            | None => mret []
            end;
    xlabel ← lift (py_index colunas 0);
    ylabel ← lift (py_index colunas 1);
    zlabel ← lift (py_index colunas 2);
    emit (st_pyplot (Axes3D (10, 7)%Z (clusters ++ marks) xlabel ylabel zlabel)).

(** The three box plots of a row: [zip(axs, frame.select_dtypes("number"))]
    with three axes. *)
Definition boxplots (d : DataFrame) (hue : string) (n_colors : nat) : list boxplot :=
  imap (fun ax col =>
          {| bp_data := d; bp_x := "cluster"; bp_y := col; bp_hue := hue;
             bp_ax := ax; bp_palette := ("Set2", n_colors) |})
       (take 3 (select_dtypes_number d)).

(** Lines 131-135 and 146-150: the reduced coordinates of the table, with
    the labels of the clustering step. *)
Definition build_df_pca (g : globals) : M loc :=
  Xt ← Pipeline_fit_transform (removelast (pipeline g)) (df g);
  df_pca ← pd_DataFrame Xt (map (fun i => "pca" +:+ str_nat i) (seq 0 3));
  km ← Pipeline_getitem (pipeline g) "clustering";
  labels ← get_labels_ km;
  DataFrame_setitem df_pca "cluster" int32 (map CInt labels);;
  mret df_pca.

(** Lines 104-159: the branch on the selected view. *)
Definition visualizar (g : globals) (opcao_visualizacao : string) : M unit :=
  if String.eqb opcao_visualizacao "Pairplot" then
    emit (st_write "### Pairplot dos Clusters");;
    emit (st_write "Este gráfico mostra a distribuição dos clusters com base nas variáveis originais.");;
    d ← get_frame (df_clustered g);
    emit (st_pyplot (PairGrid d "kde" "cluster" "tab10"))
  else if String.eqb opcao_visualizacao "Boxplot por Cluster" then
    emit (st_write "### Boxplot por Cluster");;
    emit (st_write "Compare as distribuições das variáveis para cada cluster.");;
    d ← get_frame (df_clustered g);
    emit (st_pyplot (Subplots 1 3 (16, 5)%Z (boxplots d "cluster" 5)))
  else if String.eqb opcao_visualizacao "Boxplot por Gênero" then
    emit (st_write "### Boxplot por Gênero");;
    emit (st_write "Compare as distribuições das variáveis para cada gênero dentro dos clusters.");;
    d ← get_frame (df_clustered g);
    emit (st_pyplot (Subplots 1 3 (16, 5)%Z (boxplots d "Gender" 2)))
  else if String.eqb opcao_visualizacao "Cluster em 3D (sem dispersão)" then
    emit (st_write "### Cluster em 3D (sem dispersão)");;
    emit (st_write "Visualização dos clusters em 3D após aplicação do PCA.");;
    df_pca ← build_df_pca g;
    visualizar_cluster df_pca ["pca0"; "pca1"; "pca2"] 5 None false (Some "cluster")
  else if String.eqb opcao_visualizacao "Cluster em 3D (com dispersão)" then
    emit (st_write "### Cluster em 3D (com dispersão)");;
    emit (st_write "Visualização dos clusters em 3D com dispersão após aplicação do PCA.");;
    df_pca ← build_df_pca g;
    km ← Pipeline_getitem (pipeline g) "clustering";
    centroids ← get_cluster_centers_ km;
    visualizar_cluster df_pca ["pca0"; "pca1"; "pca2"] 5 (Some centroids) true
                       (Some "cluster")
  else mret tt.

(** Lines 163-199: the closing text. *)
Definition conclusao : M unit :=
  emit (st_header "Conclusão do Projeto de Clusterização de Clientes");;
  emit (st_subheader "Resumo dos Principais Aspectos e Resultados");;
  emit (st_write "
Neste projeto, realizamos uma análise detalhada dos dados de clientes, aplicando técnicas de pré-processamento, visualização e clusterização. Utilizamos gráficos 2D e 3D para interpretar melhor a distribuição dos clusters e identificar padrões e correlações. Implementamos a redução de dimensionalidade com PCA para melhorar a qualidade dos clusters e facilitar a visualização.
");;
  emit (st_subheader "Descrição dos Clusters Antes do PCA");;
  emit (st_write "
| Pontuação de Gastos | Renda   | Idade    | Cluster |
|---------------------|---------|----------|---------|
| Alta                | Alta    | Jovem    | 0       |
| Moderada            | Moderada| Alta     | 1       |
| Alta                | Baixa   | Jovem    | 2       |
| Baixa               | Alta    | Moderada | 3       |
| Moderada            | Moderada| Jovem    | 4       |
");;
  emit (st_subheader "Análise dos Resultados");;
  emit (st_write "
Após aplicar o PCA, identificamos os seguintes padrões nos clusters:

| Cluster | Idade                      | Renda Anual | Score de Gastos         | Observações                                                                                   |
|---------|----------------------------|-------------|------------------------|----------------------------------------------------------------------------------------------|
| 4       | 30 a 40 anos               | Alta        | Alta                   | Clientes com maiores scores, rendas anuais elevadas, demonstrando maior estabilidade financeira. |
| 3       | Menos de 30 anos           | Baixa       | Alta                   | O menor cluster, com menor renda anual, mas scores elevados, quase no nível do Cluster 4.     |
| 2       | 35 a 50 anos               | Alta        | Menor                  | Clientes com alta renda anual, mas scores menores, indicando possível falta de crédito.      |
| 0       | Acima de 50 até 60 anos    | Moderada    | Moderado               | Representam a maior parte dos clientes, com rendas anuais e scores muito semelhantes ao Cluster 1. |
| 1       | Maior que 20 até 35 anos   | Moderada    | Moderado               | Representam a maior parte dos clientes, com rendas anuais e scores muito semelhantes ao Cluster 0. |
");;
  emit (st_subheader "Conclusão Final");;
  emit (st_write "
Através desta análise, conseguimos segmentar os clientes em grupos distintos, facilitando a compreensão dos diferentes perfis de consumidores. Essas informações são valiosas para estratégias de marketing, crédito e tomada de decisões empresariais. A utilização de técnicas avançadas como PCA e visualizações 3D permitiu uma análise mais precisa e detalhada dos dados, revelando padrões importantes que não seriam aparentes em uma análise superficial.

O projeto demonstrou a importância do pré-processamento, da redução de dimensionalidade e da visualização avançada na análise de dados de clientes, proporcionando insights valiosos e acionáveis.
").

(** The whole script, top to bottom. *)
Definition app : M globals :=
  g ← setup;
  emit (st_title "Análise de Cluster de Clientes");;
  emit (st_write "## Visualize a análise de clusters em tempo real. Selecione a visualização desejada e explore os dados!");;
  opcao_visualizacao ← st_sidebar_selectbox_get "Selecione a visualização" opcoes;
  visualizar g opcao_visualizacao;;
  conclusao;;
  mret g.

(** A run of the script in a given world: the final state and the outcome. *)
Definition run (w : world) : state * (exn + globals) := app (initial w).

End Script.

(** ** An executable instance of the interface

    A small stand-in for scikit-learn with the documented shapes, used to
    run the script on concrete tables: the column transformer copies the
    numeric columns and encodes Gender as two indicators, PCA keeps the
    first [n_components] coordinates, k-means labels the rows round-robin
    and takes the first [n_clusters] rows as centres. *)
Module Demo.

Definition encode (t : transformer) (c : cell) : option (list float) :=
  match t, c with
  | StandardScaler, c => x ← cell_to_float c; Some [x]
  | OneHotEncoder, CStr s =>
      Some [if String.eqb s "Female" then 1%float else 0%float;
            if String.eqb s "Male" then 1%float else 0%float]
  | OneHotEncoder, _ => None
  end.

Definition encode_row (ts : transformers_spec) (d : DataFrame) (i : nat)
    : option (list float) :=
  @List.concat float <$> mapM (fun '(_, t, cols) =>
    @List.concat float <$> mapM (fun c => col ← assoc c (series d);
                              x ← col !! i;
                              encode t x) cols) ts.

Definition ct_fit_transform (ts : transformers_spec) (d : DataFrame)
    : exn + (unit * ndarray) :=
  if (nrows d =? 0)%nat then inl (ValueError "Found array with 0 sample(s)")
  else match mapM (encode_row ts d) (seq 0 (nrows d)) with
       | Some rows => inr (tt, {| rows := rows; ncols := length (hd [] rows) |})
       | None => inl (ValueError "could not transform the columns")
       end.

Definition pca_fit_transform (n : nat) (seed : Z) (X : ndarray)
    : exn + (unit * ndarray) :=
  if (n <=? ncols X)%nat && forallb (fun row => (n <=? length row)%nat) X
     && (n <=? length X)%nat then
    inr (tt, {| rows := map (take n) X; ncols := n |})
  else inl (ValueError "n_components must be between 0 and min(n_samples, n_features)").

Definition kmeans_fit (k : nat) (seed : Z) (n_init : nat) (X : ndarray)
    : exn + kmeans_fitted :=
  if negb (forallb (fun row => (length row =? ncols X)%nat) X) then
    inl (ValueError "setting an array element with a sequence")
  else if (0 <? k)%nat && (k <=? length X)%nat then
    inr {| labels_ := imap (fun i _ => Z.of_nat (i mod k)) X;
           cluster_centers_ := {| rows := take k X; ncols := ncols X |} |}
  else inl (ValueError "n_samples should be >= n_clusters").

Definition kmeans_transform (f : kmeans_fitted) (X : ndarray) : ndarray :=
  {| rows := map (fun _ => map (fun _ => 0%float) (cluster_centers_ f)) X;
     ncols := length (cluster_centers_ f) |}.

#[export] Instance sklearn : Sklearn := {|
  ct_fitted := unit;
  pca_fitted := unit;
  ColumnTransformer_fit_transform := ct_fit_transform;
  PCA_fit_transform := pca_fit_transform;
  KMeans_fit := kmeans_fit;
  KMeans_transform := kmeans_transform
|}.

(** The dtypes [read_csv] gives the columns of the mall data set. *)
Definition mall_dtypes : string -> dtype :=
  fun name => if String.eqb name "Gender" then object_ else int64.

(** The first six customers of the mall data set. *)
Definition customers : DataFrame := {|
  nrows := 6;
  series :=
    [("Gender", map CStr ["Male"; "Male"; "Female"; "Female"; "Female"; "Female"]);
     ("Age", map CInt [19; 21; 20; 23; 31; 22]%Z);
     ("Annual Income (k$)", map CInt [15; 15; 16; 16; 17; 17]%Z);
     ("Spending Score (1-100)", map CInt [39; 81; 6; 77; 40; 76]%Z)];
  dtypes := mall_dtypes
|}.

(** The same customers behind a first column of card numbers beyond 64
    bits, to which [read_csv] gives dtype object. *)
Definition card_customers : DataFrame := {|
  nrows := 6;
  series :=
    ("Card", map CInt [18446744073709551616; 18446744073709551617;
                       18446744073709551618; 18446744073709551619;
                       18446744073709551620; 18446744073709551621]%Z)
    :: series customers;
  dtypes := set_dtype "Card" object_ mall_dtypes
|}.

(** A world with that table at the path the script reads, the global
    random generator in state [seed] and the view of index [choice]
    selected. *)
Definition world_of (seed : Z) (choice : nat) : world := {|
  files := {[ DADOS := customers ]};
  np_random := seed;
  ui_choice := choice;
  write_error := fun _ => None
|}.

(** What the three steps return on that table. *)
Definition X1 : ndarray :=
  match ct_fit_transform preprocessing_transformers customers with
  | inr (_, X) => X
  | inl _ => {| rows := []; ncols := 0 |}
  end.

Definition X2 : ndarray :=
  match pca_fit_transform 3 RANDOM_STATE X1 with
  | inr (_, X) => X
  | inl _ => {| rows := []; ncols := 0 |}
  end.

Definition f3 : kmeans_fitted :=
  match kmeans_fit 5 RANDOM_STATE 10 X2 with
  | inr f => f
  | inl _ => {| labels_ := [];
                cluster_centers_ := {| rows := []; ncols := 0 |} |}
  end.

(** A state with the unlabelled table as its only object. *)
Definition only_customers : state :=
  {| env := world_of 0 0; heap := [ODataFrame customers]; trace := [];
     fit_log := [] |}.

(** The first four customers: too few rows for five clusters. *)
Definition four_customers : DataFrame := {|
  nrows := 4;
  series :=
    [("Gender", map CStr ["Male"; "Male"; "Female"; "Female"]);
     ("Age", map CInt [19; 21; 20; 23]%Z);
     ("Annual Income (k$)", map CInt [15; 15; 16; 16]%Z);
     ("Spending Score (1-100)", map CInt [39; 81; 6; 77]%Z)];
  dtypes := mall_dtypes
|}.

(** A world with a given table at the path the script reads. *)
Definition world_with (table : DataFrame) (choice : nat) : world := {|
  files := {[ DADOS := table ]};
  np_random := 0;
  ui_choice := choice;
  write_error := fun _ => None
|}.

(** A world without the input file. *)
Definition world_without_file : world :=
  {| files := ∅; np_random := 0; ui_choice := 0; write_error := fun _ => None |}.

(** A world with the six customers where no file can be created: the
    directory of the model file is missing. *)
Definition world_no_modelos (choice : nat) : world := {|
  files := {[ DADOS := customers ]};
  np_random := 0;
  ui_choice := choice;
  write_error := fun path => Some (FileNotFoundError path)
|}.

(** The six customers with labels, the last one outside [[0, 5)], and a
    state with that frame as its only object. *)
Definition clustered_customers : DataFrame := {|
  nrows := 6;
  series := series customers ++ [("cluster", map CInt [0; 1; 2; 3; 4; 7]%Z)];
  dtypes := set_dtype "cluster" int32 mall_dtypes
|}.

Definition only_clustered_customers : state :=
  {| env := world_of 0 0; heap := [ODataFrame clustered_customers]; trace := [];
     fit_log := [] |}.

End Demo.

(** * Vocabulary of the properties *)

Section Vocabulary.
Context {L : Sklearn}.

#[local] Open Scope list_scope.

(** The fit at the start of a run succeeds: the file is there and the three
    estimators return. *)
Record fit_ok (w : world) (table : DataFrame)
    (f1 : ct_fitted) (X1 : ndarray) (f2 : pca_fitted) (X2 : ndarray)
    (f3 : kmeans_fitted) : Prop := {
  fit_file : files w !! DADOS = Some table;
  fit_preprocessing :
    ColumnTransformer_fit_transform preprocessing_transformers table = inr (f1, X1);
  fit_pca : PCA_fit_transform 3 RANDOM_STATE X1 = inr (f2, X2);
  fit_clustering : KMeans_fit 5 RANDOM_STATE 10 X2 = inr f3
}.

Definition fitted_steps f1 f2 f3 : list (string * estimator) :=
  [("preprocessing", ColumnTransformer preprocessing_transformers (Some f1));
   ("pca", PCA 3 (Some RANDOM_STATE) (Some f2));
   ("clustering", KMeans 5 (Some RANDOM_STATE) 10 (Some f3))].

(** The store once [setup] has returned: the table, the three fitted
    estimators and the labelled copy [d4] of the table. *)
Definition fitted_heap table f1 f2 f3 d4 : list object :=
  [ODataFrame table;
   OEstimator (ColumnTransformer preprocessing_transformers (Some f1));
   OEstimator (PCA 3 (Some RANDOM_STATE) (Some f2));
   OEstimator (KMeans 5 (Some RANDOM_STATE) 10 (Some f3));
   ODataFrame d4].

Definition script_globals : globals :=
  {| df := 0;
     pipeline := [("preprocessing", 1); ("pca", 2); ("clustering", 3)];
     df_clustered := 4 |}.

Definition setup_trace f1 f2 f3 : list event :=
  [st_markdown CSS true; environ_set "OMP_NUM_THREADS" "1";
   joblib_dump (fitted_steps f1 f2 f3) MODELO].

(** The table with the labels of the fitted clustering step attached. *)
Definition labelled (table : DataFrame) (f3 : kmeans_fitted) : DataFrame :=
  {| nrows := nrows table;
     series := set_series "cluster" (map CInt (labels_ f3)) (series table);
     dtypes := set_dtype "cluster" int32 (dtypes table) |}.

(** Column [j] of an array, as cells of a frame. *)
Definition coordinate (j : nat) (X : ndarray) : list cell :=
  map (fun row => CFloat (nth j row nan)) X.

(** The frame [df_pca] of the 3-D views for reduced coordinates [X2]. *)
Definition df_pca_frame (X2 : ndarray) (f3 : kmeans_fitted) : DataFrame :=
  {| nrows := length X2;
     series := [("pca0", coordinate 0 X2); ("pca1", coordinate 1 X2);
                ("pca2", coordinate 2 X2); ("cluster", map CInt (labels_ f3))];
     dtypes := set_dtype "cluster" int32 (fun _ => float64) |}.

(** The part of a column that series [i] shows. *)
Definition shown (mostrar_pontos : bool) (labels : list Z) (i : nat)
    (col : list cell) : list cell :=
  if mostrar_pontos
  then mask_list (map (cell_eq_int (Z.of_nat i)) (map CInt labels)) col
  else col.

Definition cluster_scatter X2 f3 (mostrar_pontos : bool) (i : nat) : scatter :=
  {| sc_xs := shown mostrar_pontos (labels_ f3) i (coordinate 0 X2);
     sc_ys := shown mostrar_pontos (labels_ f3) i (coordinate 1 X2);
     sc_zs := shown mostrar_pontos (labels_ f3) i (coordinate 2 X2);
     sc_color := palette_color "Set2" 5 i;
     sc_label := Some ("Cluster " +:+ str_nat i);
     sc_marker := None; sc_s := None |}.

Definition centroid_scatter (c : ndarray) : scatter :=
  {| sc_xs := coordinate 0 c; sc_ys := coordinate 1 c; sc_zs := coordinate 2 c;
     sc_color := named_color "black"; sc_label := None;
     sc_marker := Some "x"; sc_s := Some 200%Z |}.

(** The figure of [visualizar_cluster] on [df_pca]. *)
Definition chart X2 f3 (centroids : option ndarray) (mostrar_pontos : bool) : figure :=
  Axes3D (10, 7)%Z
    (map (cluster_scatter X2 f3 mostrar_pontos) (seq 0 5)
     ++ match centroids with Some c => [centroid_scatter c] | None => [] end)
    "pca0" "pca1" "pca2".

(** Text and widgets: the events that are neither a chart, nor an error
    message, nor the dump. *)
Definition is_plain (e : event) : bool :=
  match e with
  | st_pyplot _ | st_error _ | joblib_dump _ _ => false
  | _ => true
  end.

Definition is_3d (opcao : string) : bool :=
  String.eqb opcao "Cluster em 3D (sem dispersão)"
  || String.eqb opcao "Cluster em 3D (com dispersão)".

(** The chart of each view, for the labelled table [d4], the reduced
    coordinates [X2] and the fitted clustering [f3]. *)
Definition view_chart (d4 : DataFrame) (X2 : ndarray) (f3 : kmeans_fitted)
    (opcao : string) : option figure :=
  if String.eqb opcao "Pairplot" then
    Some (PairGrid d4 "kde" "cluster" "tab10")
  else if String.eqb opcao "Boxplot por Cluster" then
    Some (Subplots 1 3 (16, 5)%Z (boxplots d4 "cluster" 5))
  else if String.eqb opcao "Boxplot por Gênero" then
    Some (Subplots 1 3 (16, 5)%Z (boxplots d4 "Gender" 2))
  else if String.eqb opcao "Cluster em 3D (sem dispersão)" then
    Some (chart X2 f3 None false)
  else if String.eqb opcao "Cluster em 3D (com dispersão)" then
    Some (chart X2 f3 (Some (cluster_centers_ f3)) true)
  else None.

(** The view the user selected. *)
Definition selected (w : world) : string :=
  nth (ui_choice w) opcoes (hd "" opcoes).

Definition charts (o : option figure) : list event :=
  match o with Some fig => [st_pyplot fig] | None => [] end.

(** A computation that only appends text and returns. *)
Definition appends_plain (m : M unit) : Prop :=
  forall s, exists texts, forallb is_plain texts = true /\
    m s = ({| env := env s; heap := heap s; trace := trace s ++ texts;
              fit_log := fit_log s |}, inr tt).

Definition is_error (e : event) : bool :=
  match e with st_error _ => true | _ => false end.

(** The error messages shown so far. *)
Definition errors (t : list event) : list event := List.filter is_error t.

(** The figures rendered so far. *)
Definition figures (t : list event) : list figure :=
  omap (fun e => match e with st_pyplot fig => Some fig | _ => None end) t.

(** A computation that leaves the state as it is. *)
Definition stateless {A} (m : M A) : Prop := forall s, fst (m s) = s.

(** The point of a record in the 3-D views. *)
Definition row_point (row : list float) : cell * cell * cell :=
  (CFloat (nth 0 row nan), CFloat (nth 1 row nan), CFloat (nth 2 row nan)).

(** The points of one [ax.scatter] call. *)
Definition points (sc : scatter) : list (cell * cell * cell) :=
  zip (zip (sc_xs sc) (sc_ys sc)) (sc_zs sc).

(** The DataFrame object a variable refers to in a state. *)
Definition frame_at (s : state) (l : loc) : option DataFrame :=
  match heap s !! l with
  | Some (ODataFrame d) => Some d
  | _ => None
  end.

(** The estimator object behind a named step of [pipeline]. *)
Definition step_at (s : state) (name : string) : option estimator :=
  match assoc name (pipeline script_globals) with
  | Some l => match heap s !! l with
              | Some (OEstimator e) => Some e
              | _ => None
              end
  | None => None
  end.

(** [pipeline["clustering"].labels_] in a state, if that step is fitted. *)
Definition fitted_labels (s : state) : option (list Z) :=
  match step_at s "clustering" with
  | Some (KMeans _ _ _ (Some f)) => Some (labels_ f)
  | _ => None
  end.

(** Whether [joblib.dump] returns in a run that reaches it. *)
Definition dump_returns (w : world) : bool :=
  match write_error w MODELO with None => true | Some _ => false end.

Definition is_dump (e : event) : bool :=
  match e with joblib_dump _ _ => true | _ => false end.

(** The dumps written so far. *)
Definition dumps (t : list event) : list event := List.filter is_dump t.

(** *** [visualizar_cluster] on any frame *)

(** The rows of a column that series [i] shows, for the cells [lab] of the
    cluster column. *)
Definition rows_shown {A} (mostrar_pontos : bool) (lab : list cell) (i : nat)
    (col : list A) : list A :=
  if mostrar_pontos then mask_list (map (cell_eq_int (Z.of_nat i)) lab) col
  else col.

(** Series [i] of the figure, for the three plotted columns. *)
Definition series_scatter (quantidade_cores : nat) (mostrar_pontos : bool)
    (lab cx cy cz : list cell) (i : nat) : scatter :=
  {| sc_xs := rows_shown mostrar_pontos lab i cx;
     sc_ys := rows_shown mostrar_pontos lab i cy;
     sc_zs := rows_shown mostrar_pontos lab i cz;
     sc_color := palette_color "Set2" quantidade_cores i;
     sc_label := Some ("Cluster " +:+ str_nat i);
     sc_marker := None; sc_s := None |}.

Definition centroid_marks (centroids : option ndarray) : list scatter :=
  match centroids with
  | Some c => [centroid_scatter c]
  | None => []
  end.

(** The figure [visualizar_cluster] draws. *)
Definition cluster_figure (quantidade_cores : nat) (centroids : option ndarray)
    (mostrar_pontos : bool) (lab cx cy cz : list cell) (c0 c1 c2 : string)
    : figure :=
  Axes3D (10, 7)%Z
    (map (series_scatter quantidade_cores mostrar_pontos lab cx cy cz)
         (seq 0 quantidade_cores)
     ++ centroid_marks centroids)
    c0 c1 c2.

(** *** Failures of the fit *)

(** The first of the three estimators that raises on a table, with its
    exception and the number of steps whose fit was entered. *)
Definition first_failure (table : DataFrame) : option (exn * nat) :=
  match ColumnTransformer_fit_transform preprocessing_transformers table with
  | inl e => Some (e, 1)
  | inr (_, X1) =>
      match PCA_fit_transform 3 RANDOM_STATE X1 with
      | inl e => Some (e, 2)
      | inr (_, X2) =>
          match KMeans_fit 5 RANDOM_STATE 10 X2 with
          | inl e => Some (e, 3)
          | inr _ => None
          end
      end
  end.

End Vocabulary.

(** * Properties *)

(** ** Symbolic execution of the script *)

#[local] Arguments String.append !_ _ : simpl nomatch.
#[local] Arguments setitem : simpl never.
#[local] Arguments DataFrame_of_array : simpl never.
#[local] Arguments array_column : simpl never.
#[local] Arguments errors : simpl never.
#[local] Arguments figures : simpl never.
#[local] Arguments dumps : simpl never.

Ltac unfold_script :=
  unfold run, app, setup, visualizar, build_df_pca,
    Pipeline_fit, Pipeline_fit_transform, fit, fit_transform,
    get_labels_, get_cluster_centers_, joblib_dump_pipeline,
    DataFrame_copy, DataFrame_setitem, pd_DataFrame, pd_read_csv,
    Pipeline_getitem, st_sidebar_selectbox_get, as_array, check_random_state,
    get_frame, get_estimator, deref, store, alloc, emit, log_fit, gets,
    lift, raise, mbind, M_bind, mret, M_ret in *.

(** Case analysis on the innermost stuck scrutinee, reusing an equation
    that is already known for it. *)
Ltac break_match :=
  match goal with
  | H : ?x = _ |- context [match ?x with _ => _ end] => rewrite H
  | |- context [match ?x with _ => _ end] =>
      lazymatch x with
      | context [match _ with _ => _ end] => fail
      | _ => destruct x eqn:?
      end
  end.

Ltac break_known :=
  match goal with
  | H : ?x = _ |- context [match ?x with _ => _ end] => rewrite H; cbn
  end.

Ltac exec := repeat progress (unfold_script; cbn; repeat break_known).

Section Proofs.
Context {L : Sklearn}.

#[local] Open Scope list_scope.

Lemma bind_inr {A B} (m : M A) (f : A -> M B) s s' a :
  m s = (s', inr a) -> (m ≫= f) s = f a s'.
Proof. intros H. unfold mbind, M_bind. by rewrite H. Qed.

Lemma bind_inl {A B} (m : M A) (f : A -> M B) s s' e :
  m s = (s', inl e) -> (m ≫= f) s = (s', inl e).
Proof. intros H. unfold mbind, M_bind. by rewrite H. Qed.

Lemma get_frame_ok l d s :
  heap s !! l = Some (ODataFrame d) -> get_frame l s = (s, inr d).
Proof. intros H. unfold get_frame, deref, mbind, M_bind. by rewrite H. Qed.

Lemma setitem_same_length d name t vals :
  length vals = nrows d ->
  setitem d name t vals
  = inr {| nrows := nrows d; series := set_series name vals (series d);
           dtypes := set_dtype name t (dtypes d) |}.
Proof.
  intros H. unfold setitem. rewrite H, Nat.eqb_refl.
  destruct (nrows d); reflexivity.
Qed.

Lemma DataFrame_of_array_width (data : ndarray) names :
  ncols data = length names ->
  Forall (fun row => length row = length names) data ->
  DataFrame_of_array data names
  = inr {| nrows := length data;
           series := imap (fun j name =>
                             (name, map (fun row => CFloat (nth j row nan)) data))
                          names;
           dtypes := fun _ => float64 |}.
Proof.
  intros Hn H. unfold DataFrame_of_array. rewrite Hn, Nat.eqb_refl.
  replace (forallb _ data) with true; [reflexivity|].
  symmetry. apply forallb_forall. intros row Hrow.
  rewrite Forall_forall in H. apply Nat.eqb_eq, H. by apply list_elem_of_In.
Qed.

(** What the shapes give for a successful fit. *)
Lemma fit_ok_shapes `{!SklearnShapes L} w table f1 X1 f2 X2 f3 :
  fit_ok w table f1 X1 f2 X2 f3 ->
  length X2 = nrows table /\
  Forall (fun row => length row = 3) X2 /\
  length (labels_ f3) = nrows table /\
  Forall (fun z => (0 <= z < 5)%Z) (labels_ f3) /\
  Forall (fun c => length c = 3) (cluster_centers_ f3) /\
  ncols X2 = 3 /\
  ncols (cluster_centers_ f3) = 3.
Proof.
  intros [_ H2 H3 H4].
  apply ColumnTransformer_rows in H2.
  apply PCA_shape in H3 as (H3 & Hn & H3').
  pose proof (KMeans_centers _ _ _ _ _ H4) as (_ & Hcn & Hc).
  apply KMeans_labels in H4 as [H4 H4'].
  rewrite Hn in Hc, Hcn.
  repeat split; try congruence; assumption.
Qed.

Lemma setup_fit_ok `{!SklearnShapes L} w table f1 X1 f2 X2 f3 :
  fit_ok w table f1 X1 f2 X2 f3 ->
  write_error w MODELO = None ->
  setup (initial w)
  = ({| env := w; heap := fitted_heap table f1 f2 f3 (labelled table f3);
        trace := setup_trace f1 f2 f3; fit_log := [1; 2; 3] |},
     inr script_globals).
Proof.
  intros Hfit Hw. pose proof (fit_ok_shapes _ _ _ _ _ _ _ Hfit) as (_ & _ & Hlen & _).
  destruct Hfit as [H1 H2 H3 H4].
  exec. rewrite setitem_same_length by (by rewrite length_map).
  exec. reflexivity.
Qed.

(** When the fit succeeds and the model file cannot be opened, [setup]
    raises at the dump, with the estimators fitted and the copy labelled. *)
Lemma setup_fit_dump_fails `{!SklearnShapes L} w table f1 X1 f2 X2 f3 e :
  fit_ok w table f1 X1 f2 X2 f3 ->
  write_error w MODELO = Some e ->
  setup (initial w)
  = ({| env := w; heap := fitted_heap table f1 f2 f3 (labelled table f3);
        trace := [st_markdown CSS true; environ_set "OMP_NUM_THREADS" "1"];
        fit_log := [1; 2; 3] |},
     inl e).
Proof.
  intros Hfit Hw. pose proof (fit_ok_shapes _ _ _ _ _ _ _ Hfit) as (_ & _ & Hlen & _).
  destruct Hfit as [H1 H2 H3 H4].
  exec. rewrite setitem_same_length by (by rewrite length_map).
  exec. reflexivity.
Qed.

(** *** The 3-D views *)

Lemma array_column_wide j (a : ndarray) :
  j < ncols a ->
  Forall (fun row => j < length row) a ->
  array_column j a = inr (map (fun row => nth j row nan) a).
Proof.
  intros Hn H. unfold array_column.
  apply Nat.ltb_lt in Hn. rewrite Hn. clear Hn.
  replace (mapM _ a) with (Some (map (fun row => nth j row nan) a)); [done|].
  symmetry. apply mapM_Some. destruct a as [l n]. cbn [rows] in *.
  induction H as [|row l Hrow _ IH]; cbn.
  - constructor.
  - constructor; [|exact IH].
    destruct (lookup_lt_is_Some_2 row j Hrow) as [x Hx].
    rewrite Hx. f_equal. symmetry. by apply nth_lookup_Some with (d := nan).
Qed.

Lemma build_df_pca_ok `{!SklearnShapes L} w table f1 X1 f2 X2 f3 e d4 t fl :
  fit_ok w table f1 X1 f2 X2 f3 ->
  build_df_pca script_globals
    {| env := e; heap := fitted_heap table f1 f2 f3 d4; trace := t; fit_log := fl |}
  = ({| env := e;
        heap := fitted_heap table f1 f2 f3 d4 ++ [ODataFrame (df_pca_frame X2 f3)];
        trace := t; fit_log := fl ++ [1; 2] |}, inr 5).
Proof.
  intros Hfit.
  pose proof (fit_ok_shapes _ _ _ _ _ _ _ Hfit)
    as (Hrows & Hwidth & Hlen & _ & _ & Hn & _).
  destruct Hfit as [H1 H2 H3 H4].
  exec. rewrite DataFrame_of_array_width by (exact Hn || exact Hwidth).
  exec. rewrite setitem_same_length by (rewrite length_map; cbn; congruence).
  exec. rewrite <- app_assoc. reflexivity.
Qed.

Lemma visualizar_cluster_chart X2 f3 centroids mostrar_pontos l s :
  heap s !! l = Some (ODataFrame (df_pca_frame X2 f3)) ->
  match centroids with
  | Some c => ncols c = 3 /\ Forall (fun row => length row = 3) c
  | None => True
  end ->
  visualizar_cluster l ["pca0"; "pca1"; "pca2"] 5 centroids mostrar_pontos
                     (Some "cluster") s
  = ({| env := env s; heap := heap s;
        trace := trace s ++ [st_pyplot (chart X2 f3 centroids mostrar_pontos)];
        fit_log := fit_log s |}, inr tt).
Proof.
  intros Hl Hc.
  assert (forall j c, j < 3 -> Forall (fun row : list float => length row = 3) c ->
                      Forall (fun row => j < length row) c) as Hwide.
  { intros j c Hj H. eapply Forall_impl; [exact H|]. cbn. intros row ->. exact Hj. }
  unfold visualizar_cluster.
  destruct centroids as [c|], mostrar_pontos; exec;
    rewrite ?array_column_wide
      by (destruct Hc as [Hn Hc]; first [lia|apply Hwide; [lia|exact Hc]]); cbn;
    unfold chart, centroid_scatter, cluster_scatter, shown, coordinate; cbn;
    rewrite ?map_map; reflexivity.
Qed.

(** *** The views and the whole run *)

Lemma appends_plain_emit e : is_plain e = true -> appends_plain (emit e).
Proof.
  intros He s. exists [e]. split; [cbn; by rewrite He|reflexivity].
Qed.

Lemma appends_plain_seq e (m : M unit) :
  is_plain e = true -> appends_plain m -> appends_plain (emit e;; m).
Proof.
  intros He Hm s. unfold mbind, M_bind, emit.
  destruct (Hm {| env := env s; heap := heap s; trace := trace s ++ [e];
                  fit_log := fit_log s |}) as (texts & Ht & ->).
  exists (e :: texts). split; [cbn; by rewrite He|].
  cbn. by rewrite <- app_assoc.
Qed.

Lemma conclusao_plain : appends_plain conclusao.
Proof.
  unfold conclusao.
  repeat (apply appends_plain_seq; [reflexivity|]).
  apply appends_plain_emit. reflexivity.
Qed.

Lemma visualizar_ok `{!SklearnShapes L} w table f1 X1 f2 X2 f3 opcao e d4 t fl :
  fit_ok w table f1 X1 f2 X2 f3 ->
  exists texts, forallb is_plain texts = true /\
    visualizar script_globals opcao
      {| env := e; heap := fitted_heap table f1 f2 f3 d4; trace := t; fit_log := fl |}
    = ({| env := e;
          heap := fitted_heap table f1 f2 f3 d4
                  ++ (if is_3d opcao then [ODataFrame (df_pca_frame X2 f3)] else []);
          trace := t ++ texts ++ charts (view_chart d4 X2 f3 opcao);
          fit_log := fl ++ (if is_3d opcao then [1; 2] else []) |}, inr tt).
Proof.
  intros Hfit.
  pose proof (fit_ok_shapes _ _ _ _ _ _ _ Hfit)
    as (_ & _ & _ & _ & Hc & _ & Hcn).
  unfold visualizar, view_chart, is_3d.
  destruct (String.eqb_spec opcao "Pairplot") as [->|N1];
    [|destruct (String.eqb_spec opcao "Boxplot por Cluster") as [->|N2];
      [|destruct (String.eqb_spec opcao "Boxplot por Gênero") as [->|N3];
        [|destruct (String.eqb_spec opcao "Cluster em 3D (sem dispersão)") as [->|N4];
          [|destruct (String.eqb_spec opcao "Cluster em 3D (com dispersão)") as [->|N5]]]]].
  1-3: eexists (cons _ (cons _ nil));
       (split; [|exec; rewrite <- ?app_assoc, ?app_nil_r; reflexivity]); reflexivity.
  3: exists []; split; [reflexivity|]; cbn; rewrite !app_nil_r; reflexivity.
  all: eexists (cons _ (cons _ nil)); split; cycle 1.
  1,3: unfold mbind, M_bind, emit; cbn;
       erewrite build_df_pca_ok by exact Hfit; cbn.
  - erewrite visualizar_cluster_chart; [|reflexivity|exact I].
    cbn. rewrite <- ?app_assoc. reflexivity.
  - unfold Pipeline_getitem, get_cluster_centers_, get_estimator, deref,
      mbind, M_bind, mret, M_ret; cbn.
    erewrite visualizar_cluster_chart; [|reflexivity|exact (conj Hcn Hc)].
    cbn. rewrite <- ?app_assoc. reflexivity.
  - reflexivity.
  - reflexivity.
Qed.

(** A run whose fit succeeds completes, in every view: its final state. *)
Lemma run_fit_ok `{!SklearnShapes L} w table f1 X1 f2 X2 f3 :
  fit_ok w table f1 X1 f2 X2 f3 ->
  write_error w MODELO = None ->
  exists before after,
    forallb is_plain before = true /\ forallb is_plain after = true /\
    run w
    = ({| env := w;
          heap := fitted_heap table f1 f2 f3 (labelled table f3)
                  ++ (if is_3d (selected w)
                      then [ODataFrame (df_pca_frame X2 f3)] else []);
          trace := setup_trace f1 f2 f3 ++ before
                   ++ charts (view_chart (labelled table f3) X2 f3 (selected w))
                   ++ after;
          fit_log := [1; 2; 3] ++ (if is_3d (selected w) then [1; 2] else []) |},
       inr script_globals).
Proof.
  intros Hfit Hw. unfold run, app.
  unfold mbind at 1, M_bind at 1. rewrite (setup_fit_ok _ _ _ _ _ _ _ Hfit Hw).
  unfold st_sidebar_selectbox_get, gets, emit, mbind, M_bind. cbn.
  fold (selected w).
  edestruct (visualizar_ok w table f1 X1 f2 X2 f3 (selected w)) as (texts & Ht & ->);
    [exact Hfit|].
  edestruct conclusao_plain as (after & Ha & ->). cbn.
  eexists (_ :: _ :: _ :: texts), after.
  split; [|split; [exact Ha|]]; cycle 1.
  - unfold mret, M_ret. rewrite <- !app_assoc. reflexivity.
  - exact Ht.
Qed.

(** A run whose fit succeeds and whose model file cannot be opened stops
    at the dump: its final state. *)
Lemma run_fit_dump_fails `{!SklearnShapes L} w table f1 X1 f2 X2 f3 e :
  fit_ok w table f1 X1 f2 X2 f3 ->
  write_error w MODELO = Some e ->
  run w
  = ({| env := w; heap := fitted_heap table f1 f2 f3 (labelled table f3);
        trace := [st_markdown CSS true; environ_set "OMP_NUM_THREADS" "1"];
        fit_log := [1; 2; 3] |},
     inl e).
Proof.
  intros Hfit Hw. unfold run, app.
  unfold mbind at 1, M_bind at 1.
  by rewrite (setup_fit_dump_fails _ _ _ _ _ _ _ _ Hfit Hw).
Qed.

(** Whether or not the dump returns, a run whose fit succeeds keeps the
    table, the three fitted estimators and the labelled copy at the first
    five locations of the store. *)
Lemma run_fit_heap `{!SklearnShapes L} w table f1 X1 f2 X2 f3 :
  fit_ok w table f1 X1 f2 X2 f3 ->
  exists extra,
    heap (fst (run w)) = fitted_heap table f1 f2 f3 (labelled table f3) ++ extra.
Proof.
  intros Hfit. destruct (write_error w MODELO) as [e|] eqn:Hw.
  - rewrite (run_fit_dump_fails _ _ _ _ _ _ _ _ Hfit Hw). exists []. reflexivity.
  - destruct (run_fit_ok _ _ _ _ _ _ _ Hfit Hw) as (before & after & _ & _ & ->).
    eexists. reflexivity.
Qed.

(** *** What holds in every run, whatever the library returns *)

Lemma stateless_lift {A} (r : exn + A) : stateless (lift r).
Proof. intros s. reflexivity. Qed.

Lemma stateless_ret {A} (a : A) : stateless (mret a).
Proof. intros s. reflexivity. Qed.

Lemma stateless_bind {A B} (m : M A) (f : A -> M B) :
  stateless m -> (forall a, stateless (f a)) -> stateless (m ≫= f).
Proof.
  intros Hm Hf s. unfold mbind, M_bind. specialize (Hm s).
  destruct (m s) as [s' [e|a]]; cbn in *; subst; [reflexivity|apply Hf].
Qed.

Lemma stateless_mapM {A B} (f : A -> M B) (l : list A) :
  (forall a, stateless (f a)) -> stateless (mapM f l).
Proof.
  intros Hf. induction l as [|a l IH]; cbn.
  - apply stateless_ret.
  - apply stateless_bind; [apply Hf|]. intros b.
    apply stateless_bind; [exact IH|]. intros k. apply stateless_ret.
Qed.

Lemma stateless_run {A} (m : M A) s : stateless m -> m s = (s, snd (m s)).
Proof. intros H. specialize (H s). destruct (m s); cbn in *; by subst. Qed.

Ltac stateless :=
  repeat first
    [ apply stateless_lift | apply stateless_ret
    | apply stateless_mapM; intros ?
    | apply stateless_bind; [|intros ?]
    | match goal with |- stateless (if ?b then _ else _) => destruct b end
    | match goal with |- stateless (match ?x with _ => _ end) => destruct x end ].

(** [visualizar_cluster] only ever appends one event: the chart, or the
    error message when the guard fires; it can also raise and append
    nothing. *)
Lemma visualizar_cluster_effect l colunas n centroids mostrar_pontos coluna d s :
  heap s !! l = Some (ODataFrame d) ->
  exists new,
    fst (visualizar_cluster l colunas n centroids mostrar_pontos coluna s)
    = {| env := env s; heap := heap s; trace := trace s ++ new;
         fit_log := fit_log s |} /\
    if in_columns coluna d
    then new = [] \/ exists fig, new = [st_pyplot fig]
    else new = [st_error ("Coluna '" +:+ py_str coluna
                          +:+ "' não encontrada no dataframe.")].
Proof.
  intros Hl. unfold visualizar_cluster.
  rewrite (bind_inr _ _ _ _ _ (get_frame_ok _ _ _ Hl)).
  destruct (in_columns coluna d); cbn.
  2: { eexists. split; reflexivity. }
  - set (body := mapM _ _).
    assert (stateless body) as Hbody by (subst body; stateless).
    unfold mbind at 1, M_bind at 1. rewrite (stateless_run body s Hbody).
    destruct (snd (body s)) as [e|clusters].
    { exists []. rewrite app_nil_r. destruct s; split; [reflexivity|by left]. }
    set (marks := match centroids with Some _ => _ | None => _ end).
    assert (stateless marks) as Hmarks by (subst marks; stateless).
    unfold mbind at 1, M_bind at 1. rewrite (stateless_run marks s Hmarks).
    destruct (snd (marks s)) as [e|ms].
    { exists []. rewrite app_nil_r. destruct s; split; [reflexivity|by left]. }
    unfold mbind, M_bind, lift, emit.
    destruct (py_index colunas 0), (py_index colunas 1), (py_index colunas 2); cbn;
      try (exists []; rewrite app_nil_r; destruct s; split; [reflexivity|by left]).
    eexists. split; [reflexivity|]. right. eexists. reflexivity.
Qed.

(** [setup] either raises, having shown no error message and with [df]
    (if it was loaded) as it was read, or returns with the three estimators
    fitted and the labelled copy [d4] of the table. *)
Lemma setup_cases w :
  (exists s e,
      setup (initial w) = (s, inl e) /\
      (forall table, files w !! DADOS = Some table ->
                     heap s !! 0 = Some (ODataFrame table)) /\
      errors (trace s) = []) \/
  (exists table f1 X1 f2 X2 f3 d4,
      fit_ok w table f1 X1 f2 X2 f3 /\
      write_error w MODELO = None /\
      setitem table "cluster" int32 (map CInt (labels_ f3)) = inr d4 /\
      setup (initial w)
      = ({| env := w; heap := fitted_heap table f1 f2 f3 d4;
            trace := setup_trace f1 f2 f3; fit_log := [1; 2; 3] |},
         inr script_globals)).
Proof.
  exec. repeat (break_match; exec).
  all: first
    [ left; do 2 eexists; split; [reflexivity|];
      split; [intros; cbn; congruence|reflexivity]
    | right; do 7 eexists; split; [constructor; eassumption|];
      split; [reflexivity|]; split; [eassumption|reflexivity] ].
Qed.

(** When [setup] raises, whatever raised (the file, an estimator, the
    label column or the dump), the CSS and the environment variable are its
    only effects. *)
Lemma setup_raise_trace w s e :
  setup (initial w) = (s, inl e) ->
  trace s = [st_markdown CSS true; environ_set "OMP_NUM_THREADS" "1"].
Proof.
  revert s e. exec. repeat (break_match; exec).
  all: intros ? ? H; inversion H; reflexivity.
Qed.

(** Under the documented shapes, [setup] returns exactly when the file is
    there, the three estimators return and the model file can be written. *)
Lemma setup_returns_iff `{!SklearnShapes L} w :
  (exists s g, setup (initial w) = (s, inr g)) <->
  (exists table f1 X1 f2 X2 f3, fit_ok w table f1 X1 f2 X2 f3) /\
  write_error w MODELO = None.
Proof.
  split.
  - intros (s & g & Hs).
    destruct (setup_cases w)
      as [(s0 & e & Hs' & _)
         |(table & f1 & X1 & f2 & X2 & f3 & d4 & Hfit & Hw & _)].
    + rewrite Hs' in Hs. discriminate.
    + eauto 10.
  - intros [(table & f1 & X1 & f2 & X2 & f3 & Hfit) Hw].
    rewrite (setup_fit_ok _ _ _ _ _ _ _ Hfit Hw). eauto.
Qed.

Lemma set_series_in_columns name vals l :
  existsb (String.eqb name) (map fst (set_series name vals l)) = true.
Proof.
  induction l as [|[k v] l IH]; cbn.
  - by rewrite String.eqb_refl.
  - destruct (String.eqb_spec name k) as [->|Hne]; cbn.
    + by rewrite String.eqb_refl.
    + rewrite IH. apply orb_true_r.
Qed.

Lemma setitem_in_columns d name t vals d' :
  setitem d name t vals = inr d' -> in_columns (Some name) d' = true.
Proof.
  unfold setitem. intros H.
  repeat match type of H with
         | (if ?b then _ else _) = _ => destruct b
         end; inversion H; subst; apply set_series_in_columns.
Qed.

Lemma errors_app t1 t2 : errors (t1 ++ t2) = (errors t1 ++ errors t2)%list.
Proof. apply List.filter_app. Qed.

Lemma errors_plain t : forallb is_plain t = true -> errors t = [].
Proof.
  induction t as [|e t IH]; [done|]. cbn [forallb]. intros [He Ht]%andb_true_iff.
  destruct e; try discriminate; cbn; by apply IH.
Qed.

(** Whatever view is selected and whatever the library returns there, the
    view leaves [df], the labelled copy and the clustering step as they
    are, and shows no error message. *)
Lemma visualizar_frame w table f1 X1 f2 X2 f3 opcao e d4 t fl :
  fit_ok w table f1 X1 f2 X2 f3 ->
  let s' := fst (visualizar script_globals opcao
                   {| env := e; heap := fitted_heap table f1 f2 f3 d4;
                      trace := t; fit_log := fl |}) in
  env s' = e /\
  heap s' !! 0 = Some (ODataFrame table) /\
  heap s' !! 3 = Some (OEstimator (KMeans 5 (Some RANDOM_STATE) 10 (Some f3))) /\
  heap s' !! 4 = Some (ODataFrame d4) /\
  errors (trace s') = errors t.
Proof.
  intros [H1 H2 H3 H4]. unfold visualizar.
  destruct (String.eqb_spec opcao "Pairplot") as [->|N1];
    [|destruct (String.eqb_spec opcao "Boxplot por Cluster") as [->|N2];
      [|destruct (String.eqb_spec opcao "Boxplot por Gênero") as [->|N3];
        [|destruct (String.eqb_spec opcao "Cluster em 3D (sem dispersão)") as [->|N4];
          [|destruct (String.eqb_spec opcao "Cluster em 3D (com dispersão)") as [->|N5]]]]].
  1-3,6: exec; rewrite ?errors_app, ?app_nil_r; repeat split; reflexivity.
  all: exec; repeat (break_match; exec).
  all: try (rewrite ?errors_app, ?app_nil_r; repeat split; reflexivity).
  all: match goal with
       | H : setitem _ _ _ _ = inr ?d5 |-
         context [visualizar_cluster ?l ?cs ?n ?c ?m ?col ?s] =>
           destruct (visualizar_cluster_effect l cs n c m col d5 s eq_refl)
             as (new & -> & Hnew);
           rewrite (setitem_in_columns _ _ _ _ _ H) in Hnew
       end.
  all: cbn; rewrite !errors_app.
  all: destruct Hnew as [->|[fig ->]]; cbn; rewrite ?app_nil_r; repeat split; reflexivity.
Qed.

(** In every run, after [setup] nothing touches [df], the clustering step
    or the labelled copy, and no error message is ever shown. *)
Lemma run_frame w :
  let s := fst (run w) in
  (forall table, files w !! DADOS = Some table ->
                 heap s !! 0 = Some (ODataFrame table)) /\
  heap s !! 3 = heap (fst (setup (initial w))) !! 3 /\
  heap s !! 4 = heap (fst (setup (initial w))) !! 4 /\
  errors (trace s) = [].
Proof.
  unfold run, app.
  destruct (setup_cases w)
    as [(s0 & e & Hs & Hdf & Herr)
       |(table & f1 & X1 & f2 & X2 & f3 & d4 & Hfit & Hw & Hset & Hs)].
  - rewrite (bind_inl _ _ _ _ _ Hs), Hs. cbn. auto.
  - rewrite (bind_inr _ _ _ _ _ Hs), Hs.
    unfold st_sidebar_selectbox_get, gets, emit, mbind, M_bind. cbn.
    match goal with
    | |- context [visualizar _ ?op {| env := _; heap := _; trace := ?t1;
                                      fit_log := _ |}] =>
        pose proof (visualizar_frame w table f1 X1 f2 X2 f3 op w d4
                      t1 [1; 2; 3] Hfit) as (_ & H0 & H3 & H4 & He);
        destruct (visualizar script_globals op _) as [s2 [e|[]]]
    end; cbn in *.
    + repeat split; try assumption.
      intros t Ht. destruct Hfit as [Hfile _ _ _]. congruence.
    + destruct (conclusao_plain s2) as (after & Ha & ->). cbn.
      repeat split; try assumption.
      * intros t Ht. destruct Hfit as [Hfile _ _ _]. congruence.
      * rewrite errors_app, He, (errors_plain _ Ha). reflexivity.
Qed.

(** [setup] depends on the world through the input file only. *)
Lemma setup_deterministic w1 w2 :
  files w1 !! DADOS = files w2 !! DADOS ->
  heap (fst (setup (initial w1))) = heap (fst (setup (initial w2))).
Proof.
  intros Hfiles. exec.
  repeat (break_match; exec); reflexivity.
Qed.

(** *** Lists, columns and masks *)

Lemma assoc_set_series_eq name vals l :
  assoc name (set_series name vals l) = Some vals.
Proof.
  induction l as [|[k v] l IH]; cbn.
  - by rewrite String.eqb_refl.
  - destruct (String.eqb_spec name k) as [->|Hne]; cbn.
    + by rewrite String.eqb_refl.
    + destruct (String.eqb_spec name k); [done|exact IH].
Qed.

Lemma assoc_set_series_ne name name' vals l :
  name' <> name -> assoc name' (set_series name vals l) = assoc name' l.
Proof.
  intros Hne. induction l as [|[k v] l IH]; cbn.
  - destruct (String.eqb_spec name' name); [done|reflexivity].
  - destruct (String.eqb_spec name k) as [->|Hk]; cbn.
    + destruct (String.eqb_spec name' k); [done|reflexivity].
    + destruct (String.eqb_spec name' k); [reflexivity|exact IH].
Qed.

Lemma mask_list_zip {A B} (m : list bool) (a : list A) (b : list B) :
  mask_list m (zip a b) = zip (mask_list m a) (mask_list m b).
Proof.
  revert a b. induction m as [|x m IH]; intros [|xa a] [|xb b]; cbn; try reflexivity.
  - destruct x; [|destruct (mask_list m a)]; reflexivity.
  - destruct x; cbn; by rewrite IH.
Qed.

Lemma In_mask_list {A} (m : list bool) (l : list A) x :
  In x (mask_list m l) <->
  exists k, m !! k = Some true /\ l !! k = Some x.
Proof.
  revert l. induction m as [|b m IH]; intros [|y l]; cbn.
  1-3: split; [tauto|intros (k & H1 & H2); destruct k; discriminate].
  destruct b; cbn; rewrite IH; split.
  - intros [->|(k & H1 & H2)]; [by exists 0|by exists (S k)].
  - intros ([|k] & H1 & H2); cbn in *; [left; congruence|right; eauto].
  - intros (k & H1 & H2). by exists (S k).
  - intros ([|k] & H1 & H2); cbn in *; [discriminate|eauto].
Qed.

Lemma zip_coordinates (X : ndarray) :
  zip (zip (coordinate 0 X) (coordinate 1 X)) (coordinate 2 X) = map row_point X.
Proof.
  destruct X as [l n]. unfold coordinate. cbn [rows].
  induction l as [|row l IH]; cbn; [reflexivity|]. f_equal. exact IH.
Qed.

Lemma points_cluster_scatter X2 f3 mostrar_pontos i :
  points (cluster_scatter X2 f3 mostrar_pontos i)
  = if mostrar_pontos
    then mask_list (map (fun z => (z =? Z.of_nat i)%Z) (labels_ f3))
                   (map row_point X2)
    else map row_point X2.
Proof.
  unfold points, cluster_scatter, shown; cbn. destruct mostrar_pontos.
  - by rewrite <- !mask_list_zip, zip_coordinates, map_map.
  - apply zip_coordinates.
Qed.

(** With every label in [[0, 5)], the five masks split the records: each
    record falls in exactly one of them. *)
Lemma mask_partition {A} (labels : list Z) (pts : list A) :
  length labels = length pts ->
  Forall (fun z => (0 <= z < 5)%Z) labels ->
  Permutation
    (concat (map (fun i => mask_list (map (fun z => (z =? Z.of_nat i)%Z) labels) pts)
                 (seq 0 5)))
    pts.
Proof.
  revert pts. induction labels as [|z l IH]; intros [|x p] Hlen HF;
    try discriminate; [reflexivity|].
  apply Forall_cons in HF as [Hz HF]. injection Hlen as Hlen.
  specialize (IH p Hlen HF).
  cbn [seq map concat] in *. cbn [mask_list map] in *.
  repeat match goal with
         | |- context [(z =? ?c)%Z] => destruct (Z.eqb_spec z c)
         end; try lia.
  all: rewrite <- ?app_comm_cons, <- ?Permutation_middle; apply perm_skip, IH.
Qed.

(** ** The claims *)

Lemma figures_app t1 t2 : figures (t1 ++ t2) = (figures t1 ++ figures t2)%list.
Proof. apply omap_app. Qed.

Lemma figures_plain t : forallb is_plain t = true -> figures t = [].
Proof.
  induction t as [|e t IH]; [done|]. cbn [forallb]. intros [He Ht]%andb_true_iff.
  destruct e; try discriminate; cbn; by apply IH.
Qed.

Lemma figures_charts o : figures (charts o) = match o with Some fig => [fig] | None => [] end.
Proof. by destruct o. Qed.

Lemma fitted_heap_lookup table f1 f2 f3 d4 (extra : list object) l :
  l < 5 ->
  (fitted_heap table f1 f2 f3 d4 ++ extra) !! l = fitted_heap table f1 f2 f3 d4 !! l.
Proof. intros Hl. apply lookup_app_l. cbn. lia. Qed.

(** C1. In every run whose fit succeeds, the clustering stage is the k-means
    with the fixed 5 clusters behind the PCA with the fixed 3 components, and
    the labelled copy of the table has the records of the table and, for
    each of them, exactly one label of that stage, an integer in [[0, 4]]. *)
Theorem cluster_label_per_record `{!SklearnShapes L} w table f1 X1 f2 X2 f3 :
  fit_ok w table f1 X1 f2 X2 f3 ->
  exists d,
    frame_at (fst (run w)) (df_clustered script_globals) = Some d /\
    step_at (fst (run w)) "pca" = Some (PCA 3 (Some RANDOM_STATE) (Some f2)) /\
    step_at (fst (run w)) "clustering"
    = Some (KMeans 5 (Some RANDOM_STATE) 10 (Some f3)) /\
    nrows d = nrows table /\
    (forall name, name <> "cluster" -> getitem d name = getitem table name) /\
    getitem d "cluster" = inr (map CInt (labels_ f3)) /\
    length (labels_ f3) = nrows table /\
    forall i, i < nrows table ->
      exists z, labels_ f3 !! i = Some z /\ (0 <= z <= 4)%Z.
Proof.
  intros Hfit.
  pose proof (fit_ok_shapes _ _ _ _ _ _ _ Hfit) as (_ & _ & Hlen & Hrange & _).
  destruct (run_fit_heap _ _ _ _ _ _ _ Hfit) as (extra & Hheap).
  exists (labelled table f3). unfold frame_at, step_at. rewrite Hheap.
  cbn [assoc pipeline script_globals df_clustered String.eqb Ascii.eqb Bool.eqb].
  rewrite !fitted_heap_lookup by lia. cbn.
  repeat split; try reflexivity.
  - intros name Hne. unfold getitem, labelled; cbn.
    by rewrite assoc_set_series_ne.
  - unfold getitem, labelled; cbn. by rewrite assoc_set_series_eq.
  - exact Hlen.
  - intros i Hi. rewrite <- Hlen in Hi.
    destruct (lookup_lt_is_Some_2 _ _ Hi) as [z Hz]. exists z. split; [exact Hz|].
    rewrite Forall_forall in Hrange.
    assert (0 <= z < 5)%Z by (apply Hrange, list_elem_of_lookup; eauto). lia.
Qed.

(** C2. Two runs on the same input file end with the same labels in the
    clustering stage and the same labelled copy of the table, whatever the
    state of the global random generator and whatever view is selected in
    either run: the labels are a function of the input table (and of the
    fixed seed). *)
Theorem labels_deterministic w1 w2 :
  files w1 !! DADOS = files w2 !! DADOS ->
  fitted_labels (fst (run w1)) = fitted_labels (fst (run w2)) /\
  frame_at (fst (run w1)) (df_clustered script_globals)
  = frame_at (fst (run w2)) (df_clustered script_globals).
Proof.
  intros Hfiles.
  destruct (run_frame w1) as (_ & H13 & H14 & _).
  destruct (run_frame w2) as (_ & H23 & H24 & _).
  unfold fitted_labels, step_at, frame_at. cbn -[run].
  rewrite H13, H14, H23, H24, (setup_deterministic w1 w2 Hfiles). done.
Qed.

(** C9. In every run, whatever the view and whether or not the run raises,
    the object [df] holds at the end exactly the table that was read; and
    when [setup] returns, the labels are in another object, the copy
    [df_clustered]. *)
Theorem df_immutable w table :
  files w !! DADOS = Some table ->
  frame_at (fst (run w)) (df script_globals) = Some table /\
  forall s g, setup (initial w) = (s, inr g) ->
    g = script_globals /\
    df_clustered g <> df g /\
    frame_at s (df g) = Some table /\
    exists d, frame_at s (df_clustered g) = Some d /\
              in_columns (Some "cluster") d = true.
Proof.
  intros Hfile. split.
  - destruct (run_frame w) as (H0 & _). unfold frame_at. cbn -[run].
    by rewrite (H0 table Hfile).
  - intros s g Hs.
    destruct (setup_cases w)
      as [(s0 & e & Hs' & _)
         |(table' & f1 & X1 & f2 & X2 & f3 & d4 & [Hf _ _ _] & _ & Hset & Hs')];
      rewrite Hs' in Hs; inversion Hs; subst.
    assert (table' = table) as -> by congruence.
    repeat split; [discriminate|].
    exists d4. split; [reflexivity|]. eapply setitem_in_columns, Hset.
Qed.

(** C10. No run ever shows the missing-column message; and in a run whose
    fit succeeds with one of the two 3-D views selected, [df_pca] is built
    with its "cluster" column before [visualizar_cluster] is called, and
    that call renders the one chart of the run.  (A run in which the dump
    raises never reaches the view: it ends with that exception and no
    chart.) *)
Theorem missing_column_unreachable `{!SklearnShapes L} w :
  errors (trace (fst (run w))) = [] /\
  forall table f1 X1 f2 X2 f3,
    fit_ok w table f1 X1 f2 X2 f3 ->
    is_3d (selected w) = true ->
    match write_error w MODELO with
    | None =>
        snd (run w) = inr script_globals /\
        exists df_pca fig,
          frame_at (fst (run w)) 5 = Some df_pca /\
          in_columns (Some "cluster") df_pca = true /\
          figures (trace (fst (run w))) = [fig]
    | Some e =>
        snd (run w) = inl e /\ figures (trace (fst (run w))) = []
    end.
Proof.
  split; [apply run_frame|]. intros table f1 X1 f2 X2 f3 Hfit H3d.
  destruct (write_error w MODELO) as [e|] eqn:Hw.
  { by rewrite (run_fit_dump_fails _ _ _ _ _ _ _ _ Hfit Hw). }
  destruct (run_fit_ok _ _ _ _ _ _ _ Hfit Hw) as (before & after & Hb & Ha & ->).
  split; [reflexivity|]. cbn [fst trace heap]. rewrite H3d.
  exists (df_pca_frame X2 f3).
  unfold is_3d, view_chart in *.
  destruct (String.eqb_spec (selected w) "Cluster em 3D (sem dispersão)") as [->|N4];
    [|destruct (String.eqb_spec (selected w) "Cluster em 3D (com dispersão)")
        as [->|N5]; [|discriminate]];
    cbn [String.eqb Ascii.eqb Bool.eqb charts];
    eexists; (split; [reflexivity|]); (split; [reflexivity|]);
    rewrite !figures_app, (figures_plain _ Hb), (figures_plain _ Ha);
    reflexivity.
Qed.

(** C7. On a name that is none of the five options the branch on the view
    returns at once: the state, and so the trace, is unchanged (no chart,
    no message) and nothing is raised. *)
Theorem unrecognized_view_falls_through g opcao_visualizacao s :
  ~ In opcao_visualizacao opcoes ->
  visualizar g opcao_visualizacao s = (s, inr tt).
Proof.
  intros Hnot. unfold visualizar.
  repeat match goal with
         | |- context [String.eqb opcao_visualizacao ?o] =>
             destruct (String.eqb_spec opcao_visualizacao o) as [->|_];
             [exfalso; apply Hnot; cbn; tauto|]
         end.
  reflexivity.
Qed.

(** C6. When [coluna_clusters] is not a column of the frame,
    [visualizar_cluster] shows the error message and returns: nothing else
    is appended to the trace, so no chart is rendered, and nothing is
    raised.  The guard is the only source of error messages: when the
    column is there, the call shows none. *)
Theorem missing_column_guard dataframe d colunas quantidade_cores centroids
    mostrar_pontos coluna_clusters s :
  heap s !! dataframe = Some (ODataFrame d) ->
  (in_columns coluna_clusters d = false ->
   visualizar_cluster dataframe colunas quantidade_cores centroids
                      mostrar_pontos coluna_clusters s
   = ({| env := env s; heap := heap s;
         trace := trace s ++ [st_error ("Coluna '" +:+ py_str coluna_clusters
                                        +:+ "' não encontrada no dataframe.")];
         fit_log := fit_log s |}, inr tt)) /\
  (in_columns coluna_clusters d = true ->
   errors (trace (fst (visualizar_cluster dataframe colunas quantidade_cores
                         centroids mostrar_pontos coluna_clusters s)))
   = errors (trace s)).
Proof.
  intros Hl. split; intros Hcol.
  - unfold visualizar_cluster.
    rewrite (bind_inr _ _ _ _ _ (get_frame_ok _ _ _ Hl)), Hcol. reflexivity.
  - destruct (visualizar_cluster_effect dataframe colunas quantidade_cores
                centroids mostrar_pontos coluna_clusters d s Hl) as (new & -> & Hnew).
    rewrite Hcol in Hnew. cbn. rewrite errors_app.
    destruct Hnew as [->|[fig ->]]; cbn; by rewrite app_nil_r.
Qed.

Lemma dumps_app t1 t2 : dumps (t1 ++ t2) = dumps t1 ++ dumps t2.
Proof. apply List.filter_app. Qed.

Lemma dumps_plain t : forallb is_plain t = true -> dumps t = [].
Proof.
  induction t as [|e t IH]; [done|]. cbn [forallb]. intros [He Ht]%andb_true_iff.
  destruct e; try discriminate; cbn; by apply IH.
Qed.

Lemma dumps_charts o : dumps (charts o) = [].
Proof. by destruct o. Qed.

(** C8, as the code has it.  A run whose fit succeeds and in which the
    model file can be opened for writing dumps the pipeline exactly once,
    with its three steps fitted, to the fixed path, after the fit and before
    any chart, whatever view is selected.  A run whose fit succeeds and in
    which opening the model file raises ends there with that exception; it
    and every run whose load or fit raises dump nothing and render no
    chart. *)
Theorem pipeline_dumped `{!SklearnShapes L} w :
  (forall table f1 X1 f2 X2 f3,
      fit_ok w table f1 X1 f2 X2 f3 ->
      write_error w "modelos/pipeline_preprocessing_pca_clustering.pkl" = None ->
      exists pre post,
        trace (fst (run w))
        = pre ++ joblib_dump (fitted_steps f1 f2 f3)
                             "modelos/pipeline_preprocessing_pca_clustering.pkl"
                 :: post /\
        dumps pre = [] /\ figures pre = [] /\ dumps post = [] /\
        fit_log (fst (setup (initial w))) = map snd (pipeline script_globals)) /\
  (forall table f1 X1 f2 X2 f3 e,
      fit_ok w table f1 X1 f2 X2 f3 ->
      write_error w "modelos/pipeline_preprocessing_pca_clustering.pkl" = Some e ->
      snd (run w) = inl e /\
      dumps (trace (fst (run w))) = [] /\ figures (trace (fst (run w))) = [] /\
      fit_log (fst (run w)) = map snd (pipeline script_globals)) /\
  ((forall table f1 X1 f2 X2 f3, ~ fit_ok w table f1 X1 f2 X2 f3) ->
   (exists e, snd (run w) = inl e) /\
   dumps (trace (fst (run w))) = [] /\ figures (trace (fst (run w))) = []).
Proof.
  split; [|split].
  - intros table f1 X1 f2 X2 f3 Hfit Hw.
    destruct (run_fit_ok _ _ _ _ _ _ _ Hfit Hw) as (before & after & Hb & Ha & ->).
    rewrite (setup_fit_ok _ _ _ _ _ _ _ Hfit Hw).
    exists [st_markdown CSS true; environ_set "OMP_NUM_THREADS" "1"].
    eexists. split; [reflexivity|].
    rewrite !dumps_app, dumps_charts, (dumps_plain _ Hb), (dumps_plain _ Ha).
    repeat split.
  - intros table f1 X1 f2 X2 f3 e Hfit Hw.
    rewrite (run_fit_dump_fails _ _ _ _ _ _ _ _ Hfit Hw). repeat split.
  - intros Hno.
    destruct (setup_cases w)
      as [(s0 & e & Hs & _)|(table & f1 & X1 & f2 & X2 & f3 & d4 & Hfit & _)];
      [|destruct (Hno _ _ _ _ _ _ Hfit)].
    assert (run w = (s0, inl e)) as ->
      by (unfold run, app; apply (bind_inl _ _ _ _ _ Hs)).
    cbn [fst snd]. rewrite (setup_raise_trace _ _ _ Hs). eauto.
Qed.

(** C4, as the code has it.  In a run whose fit succeeds the three steps
    are fit once, in order, by [setup]; the clustering step is never fit
    again; the Pairplot and Boxplot views fit nothing; each of the two 3-D
    views, when the run reaches it (the dump returned), fits the steps
    before the clustering a second time. *)
Theorem fits_per_run `{!SklearnShapes L} w table f1 X1 f2 X2 f3 :
  fit_ok w table f1 X1 f2 X2 f3 ->
  fit_log (fst (setup (initial w))) = map snd (pipeline script_globals) /\
  fit_log (fst (run w))
  = map snd (pipeline script_globals)
    ++ (if dump_returns w && is_3d (selected w)
        then map snd (removelast (pipeline script_globals)) else []) /\
  forall l, assoc "clustering" (pipeline script_globals) = Some l ->
            count_occ Nat.eq_dec (fit_log (fst (run w))) l = 1.
Proof.
  intros Hfit. unfold dump_returns.
  destruct (write_error w MODELO) as [e|] eqn:Hw.
  - rewrite (run_fit_dump_fails _ _ _ _ _ _ _ _ Hfit Hw),
      (setup_fit_dump_fails _ _ _ _ _ _ _ _ Hfit Hw).
    split; [reflexivity|]. split; [reflexivity|].
    intros l Hl. cbn in Hl. by injection Hl as <-.
  - destruct (run_fit_ok _ _ _ _ _ _ _ Hfit Hw) as (before & after & Hb & Ha & ->).
    rewrite (setup_fit_ok _ _ _ _ _ _ _ Hfit Hw).
    split; [reflexivity|]. split; [reflexivity|].
    intros l Hl. cbn in Hl. injection Hl as <-.
    cbn [fst fit_log]. destruct (is_3d (selected w)); reflexivity.
Qed.

(** C5. After a successful fit, the steps before the clustering, applied
    to the table as the 3-D views do, return one row of exactly 3
    coordinates per record; these are the columns pca0, pca1, pca2 of
    [df_pca] in a run that reaches a 3-D view (one in which the dump
    raised has no [df_pca]). *)
Theorem reduced_coordinates_3 `{!SklearnShapes L} w table f1 X1 f2 X2 f3 :
  fit_ok w table f1 X1 f2 X2 f3 ->
  exists s' X,
    Pipeline_fit_transform (removelast (pipeline script_globals))
                           (df script_globals) (fst (setup (initial w)))
    = (s', inr X) /\
    length X = nrows table /\
    Forall (fun row => length row = 3) X /\
    (is_3d (selected w) = true ->
     frame_at (fst (run w)) 5
     = if dump_returns w then Some (df_pca_frame X f3) else None).
Proof.
  intros Hfit. unfold dump_returns.
  pose proof (fit_ok_shapes _ _ _ _ _ _ _ Hfit) as (Hrows & Hwidth & _).
  destruct (write_error w MODELO) as [e|] eqn:Hw.
  - rewrite (setup_fit_dump_fails _ _ _ _ _ _ _ _ Hfit Hw).
    destruct Hfit as [H1 H2 H3 H4].
    eexists _, X2. split; [exec; reflexivity|].
    repeat split; try assumption.
    by rewrite (run_fit_dump_fails _ _ _ _ _ _ _ _ (Build_fit_ok _ _ _ _ _ _ _ H1 H2 H3 H4) Hw).
  - destruct (run_fit_ok _ _ _ _ _ _ _ Hfit Hw) as (before & after & Hb & Ha & ->).
    rewrite (setup_fit_ok _ _ _ _ _ _ _ Hfit Hw).
    destruct Hfit as [H1 H2 H3 H4].
    eexists _, X2. split; [exec; reflexivity|].
    repeat split; try assumption.
    intros ->. reflexivity.
Qed.

(** C3, as the code has it.  Two runs on the same table that reach the
    3-D views, one without dispersion and one with it, build the same
    [df_pca] and render one figure each, with the same size and axes and
    five series of the same colours and labels.  Both draw scatter points
    of the records: without dispersion every series draws every record
    (each record five times, once in every colour); with dispersion series
    [i] draws exactly the records labelled [i], in the order of the table
    (each record once, in the series of its cluster), and the centroids are
    overlaid as one more scatter; without dispersion there is no overlay. *)
Theorem views_3d_series `{!SklearnShapes L} w1 w2 table f1 X1 f2 X2 f3 :
  fit_ok w1 table f1 X1 f2 X2 f3 ->
  files w2 !! DADOS = Some table ->
  write_error w1 MODELO = None ->
  write_error w2 MODELO = None ->
  selected w1 = "Cluster em 3D (sem dispersão)" ->
  selected w2 = "Cluster em 3D (com dispersão)" ->
  frame_at (fst (run w1)) 5 = Some (df_pca_frame X2 f3) /\
  frame_at (fst (run w2)) 5 = Some (df_pca_frame X2 f3) /\
  exists ss1 ss2,
    figures (trace (fst (run w1)))
    = [Axes3D (10, 7)%Z ss1 "pca0" "pca1" "pca2"] /\
    figures (trace (fst (run w2)))
    = [Axes3D (10, 7)%Z (ss2 ++ [centroid_scatter (cluster_centers_ f3)])
              "pca0" "pca1" "pca2"] /\
    length ss1 = 5 /\ length ss2 = 5 /\
    (forall i, i < 5 ->
       exists sc1 sc2,
         ss1 !! i = Some sc1 /\ ss2 !! i = Some sc2 /\
         sc_color sc1 = palette_color "Set2" 5 i /\
         sc_color sc2 = palette_color "Set2" 5 i /\
         sc_label sc1 = Some ("Cluster " +:+ str_nat i) /\
         sc_label sc2 = Some ("Cluster " +:+ str_nat i) /\
         points sc1 = map row_point X2 /\
         points sc2
         = mask_list (map (fun z => (z =? Z.of_nat i)%Z) (labels_ f3))
                     (map row_point X2)) /\
    concat (map points ss1) = concat (repeat (map row_point X2) 5) /\
    Permutation (concat (map points ss2)) (map row_point X2).
Proof.
  intros Hfit1 Hfile2 Hw1 Hw2 Hsel1 Hsel2.
  assert (fit_ok w2 table f1 X1 f2 X2 f3) as Hfit2
    by (destruct Hfit1; by constructor).
  pose proof (fit_ok_shapes _ _ _ _ _ _ _ Hfit1) as (Hrows & _ & Hlen & Hrange & _).
  destruct (run_fit_ok _ _ _ _ _ _ _ Hfit1 Hw1) as (b1 & a1 & Hb1 & Ha1 & ->).
  destruct (run_fit_ok _ _ _ _ _ _ _ Hfit2 Hw2) as (b2 & a2 & Hb2 & Ha2 & ->).
  rewrite Hsel1, Hsel2. cbn [fst trace heap].
  rewrite !figures_app, (figures_plain _ Hb1), (figures_plain _ Ha1),
    (figures_plain _ Hb2), (figures_plain _ Ha2).
  split; [reflexivity|]. split; [reflexivity|].
  exists (map (cluster_scatter X2 f3 false) (seq 0 5)),
         (map (cluster_scatter X2 f3 true) (seq 0 5)).
  split; [reflexivity|]. split; [reflexivity|].
  split; [reflexivity|]. split; [reflexivity|].
  split; [|split].
  - intros i Hi.
    exists (cluster_scatter X2 f3 false i), (cluster_scatter X2 f3 true i).
    rewrite !list_lookup_fmap, lookup_seq_lt by lia.
    rewrite !points_cluster_scatter. repeat split; reflexivity.
  - rewrite map_map. cbn [seq map repeat].
    by rewrite !points_cluster_scatter.
  - rewrite map_map.
    rewrite (map_ext _ _ (fun i => points_cluster_scatter X2 f3 true i)).
    apply mask_partition.
    + by rewrite length_map, Hlen.
    + exact Hrange.
Qed.

(** ** Further properties of the script *)

(** *** [visualizar_cluster] on any frame *)

Lemma mapM_returns {A B} (f : A -> M B) (g : A -> B) (l : list A) s :
  (forall a, In a l -> f a s = (s, inr (g a))) ->
  mapM f l s = (s, inr (map g l)).
Proof.
  induction l as [|a l IH]; intros Hf; [reflexivity|]. cbn.
  rewrite (bind_inr _ _ _ _ _ (Hf a (or_introl eq_refl))).
  rewrite (bind_inr _ _ _ _ _ (IH (fun b Hb => Hf b (or_intror Hb)))).
  reflexivity.
Qed.

Lemma getitem_in_columns d name col :
  getitem d name = inr col -> in_columns (Some name) d = true.
Proof.
  unfold getitem, in_columns, columns. destruct d as [n l t]; cbn.
  induction l as [|[k v] l IH]; cbn; [discriminate|].
  destruct (String.eqb name k); [reflexivity|exact IH].
Qed.

Lemma getitem_boolean_index d mask name col :
  getitem d name = inr col ->
  getitem (boolean_index d mask) name = inr (mask_list mask col).
Proof.
  unfold getitem, boolean_index. destruct d as [n l t]; cbn.
  induction l as [|[k v] l IH]; cbn; [discriminate|].
  destruct (String.eqb name k); [by intros [= ->]|exact IH].
Qed.

(** [visualizar_cluster] on a frame that has the cluster column and the
    three plotted columns, with centroids (if any) of three coordinates,
    draws [cluster_figure]. *)
Lemma visualizar_cluster_figure dataframe d c0 c1 c2 more quantidade_cores
    centroids mostrar_pontos coluna lab cx cy cz s :
  heap s !! dataframe = Some (ODataFrame d) ->
  getitem d coluna = inr lab ->
  getitem d c0 = inr cx -> getitem d c1 = inr cy -> getitem d c2 = inr cz ->
  match centroids with
  | Some c => 3 <= ncols c /\ Forall (fun row => 3 <= length row) c
  | None => True
  end ->
  visualizar_cluster dataframe (c0 :: c1 :: c2 :: more) quantidade_cores
                     centroids mostrar_pontos (Some coluna) s
  = ({| env := env s; heap := heap s;
        trace := trace s
                 ++ [st_pyplot (cluster_figure quantidade_cores centroids
                                  mostrar_pontos lab cx cy cz c0 c1 c2)];
        fit_log := fit_log s |}, inr tt).
Proof.
  intros Hl Hlab Hx Hy Hz Hc. unfold visualizar_cluster.
  rewrite (bind_inr _ _ _ _ _ (get_frame_ok _ _ _ Hl)).
  rewrite (getitem_in_columns _ _ _ Hlab). cbn [negb].
  erewrite bind_inr; cycle 1.
  { apply mapM_returns
      with (g := series_scatter quantidade_cores mostrar_pontos lab cx cy cz).
    intros i _. unfold mbind, M_bind, lift, mret, M_ret, py_index, getitem_label.
    cbn. destruct mostrar_pontos.
    - rewrite Hlab.
      rewrite (getitem_boolean_index _ _ _ _ Hx), (getitem_boolean_index _ _ _ _ Hy),
        (getitem_boolean_index _ _ _ _ Hz). reflexivity.
    - rewrite Hx, Hy, Hz. reflexivity. }
  erewrite bind_inr; cycle 1.
  { instantiate (1 := centroid_marks centroids). instantiate (1 := s).
    destruct centroids as [c|]; [|reflexivity]. destruct Hc as [Hn Hc].
    assert (forall j, j < 3 -> Forall (fun row : list float => j < length row) c)
      as Hwide.
    { intros j Hj. eapply Forall_impl; [exact Hc|]. cbn. intros row Hrow. lia. }
    unfold mbind, M_bind, lift.
    rewrite !array_column_wide by first [lia|apply Hwide; lia]. cbn.
    unfold centroid_scatter, coordinate. rewrite !map_map. reflexivity. }
  reflexivity.
Qed.

(** X1. [visualizar_cluster] on a frame that has the cluster column and the
    three plotted columns, with centroids (if any) of at least three
    columns, returns after rendering one figure of size 10 by 7.  Its axes
    are named after the first three of [colunas] (further names are
    ignored).  Its scatters are one series per colour index
    [i < quantidade_cores], in that order, followed by the centroid marks
    if centroids are given.  Series [i] is coloured [Set2[i]] and labelled
    "Cluster i", and draws the three plotted columns: with [mostrar_pontos]
    restricted to the rows whose cluster cell equals [i], in their order
    (so a row whose cell equals no index below [quantidade_cores] is in no
    series); without it every series draws every row. *)
Theorem visualizar_cluster_renders dataframe d c0 c1 c2 more quantidade_cores
    centroids mostrar_pontos coluna lab cx cy cz s :
  heap s !! dataframe = Some (ODataFrame d) ->
  getitem d coluna = inr lab ->
  getitem d c0 = inr cx -> getitem d c1 = inr cy -> getitem d c2 = inr cz ->
  match centroids with
  | Some c => 3 <= ncols c /\ Forall (fun row => 3 <= length row) c
  | None => True
  end ->
  exists ss,
    visualizar_cluster dataframe (c0 :: c1 :: c2 :: more) quantidade_cores
                       centroids mostrar_pontos (Some coluna) s
    = ({| env := env s; heap := heap s;
          trace := trace s
                   ++ [st_pyplot
                         (Axes3D (10, 7)%Z
                            (ss ++ match centroids with
                                   | Some c => [centroid_scatter c]
                                   | None => []
                                   end)
                            c0 c1 c2)];
          fit_log := fit_log s |}, inr tt) /\
    length ss = quantidade_cores /\
    forall i, i < quantidade_cores ->
      exists sc,
        ss !! i = Some sc /\
        sc_color sc = palette_color "Set2" quantidade_cores i /\
        sc_label sc = Some ("Cluster " +:+ str_nat i) /\
        sc_marker sc = None /\ sc_s sc = None /\
        let rows_of {A} (col : list A) :=
          if mostrar_pontos
          then mask_list (map (cell_eq_int (Z.of_nat i)) lab) col else col in
        sc_xs sc = rows_of cx /\ sc_ys sc = rows_of cy /\ sc_zs sc = rows_of cz.
Proof.
  intros Hl Hlab Hx Hy Hz Hc.
  exists (map (series_scatter quantidade_cores mostrar_pontos lab cx cy cz)
              (seq 0 quantidade_cores)).
  split; [by apply visualizar_cluster_figure with (d := d)|].
  split; [by rewrite length_map, length_seq|].
  intros i Hi.
  exists (series_scatter quantidade_cores mostrar_pontos lab cx cy cz i).
  rewrite list_lookup_fmap, lookup_seq_lt by exact Hi.
  repeat split; reflexivity.
Qed.

(** X2. With fewer than three names in [colunas], [visualizar_cluster] on a
    frame that has the cluster column raises and leaves the state as it
    was: no chart and no message. *)
Theorem visualizar_cluster_needs_three_columns dataframe d colunas
    quantidade_cores centroids mostrar_pontos coluna_clusters s :
  heap s !! dataframe = Some (ODataFrame d) ->
  in_columns coluna_clusters d = true ->
  length colunas < 3 ->
  exists e,
    visualizar_cluster dataframe colunas quantidade_cores centroids
                       mostrar_pontos coluna_clusters s
    = (s, inl e).
Proof.
  intros Hl Hcol Hlen. unfold visualizar_cluster.
  rewrite (bind_inr _ _ _ _ _ (get_frame_ok _ _ _ Hl)), Hcol. cbn [negb].
  set (body := mapM _ _).
  assert (stateless body) as Hbody by (subst body; stateless).
  unfold mbind at 1, M_bind at 1. rewrite (stateless_run body s Hbody).
  destruct (snd (body s)) as [e|clusters]; [by exists e|].
  set (marks := match centroids with Some _ => _ | None => _ end).
  assert (stateless marks) as Hmarks by (subst marks; stateless).
  unfold mbind at 1, M_bind at 1. rewrite (stateless_run marks s Hmarks).
  destruct (snd (marks s)) as [e|ms]; [by exists e|].
  unfold mbind, M_bind, lift, py_index.
  assert (colunas !! 2 = None) as H2 by (apply lookup_ge_None; lia).
  rewrite H2.
  destruct (colunas !! 0); [|by eexists].
  destruct (colunas !! 1); by eexists.
Qed.

Lemma array_column_short j (a : ndarray) :
  ncols a <= j \/ Exists (fun row => length row <= j) a ->
  array_column j a = inl IndexError.
Proof.
  intros H. unfold array_column.
  destruct (Nat.ltb_spec j (ncols a)) as [Hn|Hn]; [|reflexivity].
  destruct H as [H|H]; [lia|].
  destruct a as [l n]. cbn [rows] in *.
  destruct (mapM _ l) as [col|] eqn:E; [|reflexivity].
  apply mapM_Some in E. exfalso.
  induction E as [|row x l col Hrow _ IH].
  - by apply Exists_nil in H.
  - apply Exists_cons in H as [H|H]; [|by apply IH].
    apply lookup_lt_Some in Hrow. lia.
Qed.

(** X3. Centroids with fewer than three columns (with or without rows), or
    with a row of fewer than three coordinates, make [visualizar_cluster]
    raise on a frame that has the cluster column, with the state as it
    was: no chart and no message. *)
Theorem visualizar_cluster_needs_wide_centroids dataframe d colunas
    quantidade_cores c mostrar_pontos coluna_clusters s :
  heap s !! dataframe = Some (ODataFrame d) ->
  in_columns coluna_clusters d = true ->
  ncols c < 3 \/ Exists (fun row => length row < 3) c ->
  exists e,
    visualizar_cluster dataframe colunas quantidade_cores (Some c)
                       mostrar_pontos coluna_clusters s
    = (s, inl e).
Proof.
  intros Hl Hcol Hc. unfold visualizar_cluster.
  rewrite (bind_inr _ _ _ _ _ (get_frame_ok _ _ _ Hl)), Hcol. cbn [negb].
  set (body := mapM _ _).
  assert (stateless body) as Hbody by (subst body; stateless).
  unfold mbind at 1, M_bind at 1. rewrite (stateless_run body s Hbody).
  destruct (snd (body s)) as [e|clusters]; [by exists e|].
  unfold mbind, M_bind, lift.
  rewrite (array_column_short 2 c)
    by (destruct Hc as [Hc|Hc];
        [left; lia|right; eapply Exists_impl; [exact Hc|]; cbn; intros; lia]).
  destruct (array_column 0 c); [by eexists|].
  destruct (array_column 1 c); by eexists.
Qed.

Lemma getitem_missing d name :
  in_columns (Some name) d = false -> getitem d name = inl (KeyError name).
Proof.
  unfold getitem, in_columns, columns. destruct d as [n l t]; cbn.
  induction l as [|[k v] l IH]; cbn; [reflexivity|].
  destruct (String.eqb name k); [discriminate|exact IH].
Qed.

Lemma in_columns_getitem d name :
  in_columns (Some name) d = true -> exists col, getitem d name = inr col.
Proof.
  unfold getitem, in_columns, columns. destruct d as [n l t]; cbn.
  induction l as [|[k v] l IH]; cbn; [discriminate|].
  destruct (String.eqb name k); [eauto|exact IH].
Qed.

Lemma in_columns_boolean_index d mask name :
  in_columns name (boolean_index d mask) = in_columns name d.
Proof.
  destruct name as [name|]; [|reflexivity].
  unfold in_columns, columns, boolean_index. destruct d as [n l t]; cbn.
  induction l as [|[k v] l IH]; cbn; [reflexivity|]. by rewrite IH.
Qed.

(** X4. The guard covers the cluster column only: when the first name of
    [colunas] is not a column of the frame and there is at least one
    colour, [visualizar_cluster] raises KeyError for that name on its first
    series, with the state as it was. *)
Theorem visualizar_cluster_missing_plotted_column dataframe d c0 more
    quantidade_cores centroids mostrar_pontos coluna_clusters s :
  heap s !! dataframe = Some (ODataFrame d) ->
  in_columns coluna_clusters d = true ->
  in_columns (Some c0) d = false ->
  0 < quantidade_cores ->
  visualizar_cluster dataframe (c0 :: more) quantidade_cores centroids
                     mostrar_pontos coluna_clusters s
  = (s, inl (KeyError c0)).
Proof.
  intros Hl Hcol Hc0 Hn. unfold visualizar_cluster.
  rewrite (bind_inr _ _ _ _ _ (get_frame_ok _ _ _ Hl)), Hcol. cbn [negb].
  destruct quantidade_cores as [|n]; [lia|].
  destruct coluna_clusters as [c|]; [|discriminate].
  destruct (in_columns_getitem _ _ Hcol) as [col Hgetc].
  erewrite bind_inl; [reflexivity|].
  cbn [seq mapM]. erewrite bind_inl; [reflexivity|].
  unfold mbind, M_bind, lift, mret, M_ret, py_index, getitem_label. cbn.
  destruct mostrar_pontos.
  - rewrite Hgetc, getitem_missing; [reflexivity|].
    by rewrite in_columns_boolean_index.
  - by rewrite getitem_missing.
Qed.

(** *** Runs that raise in [setup] *)

(** X5. Without the input file the run stops at [pd.read_csv] with
    FileNotFoundError: the only effects are the CSS and the environment
    variable; no object exists, nothing is fitted, dumped or drawn. *)
Theorem run_without_input_file w :
  files w !! DADOS = None ->
  run w
  = ({| env := w; heap := [];
        trace := [st_markdown CSS true; environ_set "OMP_NUM_THREADS" "1"];
        fit_log := [] |},
     inl (FileNotFoundError DADOS)).
Proof. intros Hfile. exec. reflexivity. Qed.

(** X6. Whatever makes [setup] raise (the file, an estimator, the label
    column, the dump), the run ends there with the same exception and
    state; the CSS and the environment variable are its only effects: no
    dump, no title, no select box, no chart, no conclusion. *)
Theorem setup_failure_stops_run w s e :
  setup (initial w) = (s, inl e) ->
  run w = (s, inl e) /\
  trace (fst (run w))
  = [st_markdown CSS true; environ_set "OMP_NUM_THREADS" "1"].
Proof.
  intros Hs.
  assert (run w = (s, inl e)) as ->
    by (unfold run, app; apply (bind_inl _ _ _ _ _ Hs)).
  split; [reflexivity|]. eapply setup_raise_trace, Hs.
Qed.

(** X7. When one of the three estimators raises on the table, the run raises
    the exception of the first one that does, unchanged, having entered
    the fit of the steps up to that one and of no later step; the
    clustering step has no labels. *)
Theorem fit_raises_first_failure w table e k :
  files w !! DADOS = Some table ->
  first_failure table = Some (e, k) ->
  snd (run w) = inl e /\
  fit_log (fst (run w)) = map snd (take k (pipeline script_globals)) /\
  fitted_labels (fst (run w)) = None.
Proof.
  intros Hfile. unfold first_failure.
  destruct (ColumnTransformer_fit_transform _ _) as [e1|[f1 X1]] eqn:H1;
    [|destruct (PCA_fit_transform _ _ _) as [e2|[f2 X2]] eqn:H2;
      [|destruct (KMeans_fit _ _ _ _) as [e3|f3] eqn:H3; [|discriminate]]];
    intros [= <- <-]; exec; repeat split; reflexivity.
Qed.

(** *** Runs whose fit succeeds *)

Lemma selected_in_opcoes w : In (selected w) opcoes.
Proof.
  unfold selected.
  destruct (ui_choice w) as [|[|[|[|[|n]]]]]; cbn; try destruct n; cbn; auto 10.
Qed.

(** X8. A run whose fit succeeds and whose dump returns (the model file
    can be opened for writing) completes, in every view; the select box
    yields one of the five options, so the silent fall-through of the
    branch on the view is never taken; exactly one chart is rendered, that
    of the selected view. *)
Theorem one_chart_per_run `{!SklearnShapes L} w table f1 X1 f2 X2 f3 :
  fit_ok w table f1 X1 f2 X2 f3 ->
  write_error w MODELO = None ->
  snd (run w) = inr script_globals /\
  In (selected w) opcoes /\
  exists fig,
    view_chart (labelled table f3) X2 f3 (selected w) = Some fig /\
    figures (trace (fst (run w))) = [fig].
Proof.
  intros Hfit Hw.
  destruct (run_fit_ok _ _ _ _ _ _ _ Hfit Hw) as (before & after & Hb & Ha & ->).
  split; [reflexivity|]. split; [apply selected_in_opcoes|].
  cbn [fst trace].
  rewrite !figures_app, figures_charts, (figures_plain _ Hb), (figures_plain _ Ha).
  pose proof (selected_in_opcoes w) as Hsel. unfold view_chart.
  destruct Hsel as [<-|[<-|[<-|[<-|[<-|[]]]]]]; cbn; eexists; split; reflexivity.
Qed.

(** X9. Every view leaves the five objects of [setup] (the table, the three
    fitted estimators, the labelled copy) as [setup] left them: the refit of
    the first two steps in the 3-D views gives them the fitted state they
    had, so the pipeline at the end of the run is the one that was dumped
    (when the dump returned).  A 3-D view that the run reaches adds one
    object, [df_pca]; the other views add none. *)
Theorem store_after_view `{!SklearnShapes L} w table f1 X1 f2 X2 f3 :
  fit_ok w table f1 X1 f2 X2 f3 ->
  take 5 (heap (fst (run w))) = heap (fst (setup (initial w))) /\
  length (heap (fst (run w)))
  = (if dump_returns w && is_3d (selected w) then 6 else 5) /\
  (forall name e, In (name, e) (fitted_steps f1 f2 f3) ->
                  step_at (fst (run w)) name = Some e) /\
  (dump_returns w = true ->
   In (joblib_dump (fitted_steps f1 f2 f3) MODELO) (trace (fst (run w)))).
Proof.
  intros Hfit.
  assert (forall extra name e,
             In (name, e) (fitted_steps f1 f2 f3) ->
             match assoc name (pipeline script_globals) with
             | Some l =>
                 match (fitted_heap table f1 f2 f3 (labelled table f3) ++ extra) !! l with
                 | Some (OEstimator e') => Some e'
                 | _ => None
                 end
             | None => None
             end = Some e) as Hsteps.
  { intros extra name e Hin.
    destruct Hin as [[= <- <-]|[[= <- <-]|[[= <- <-]|[]]]];
      cbn [assoc pipeline script_globals String.eqb Ascii.eqb Bool.eqb];
      rewrite fitted_heap_lookup by lia; reflexivity. }
  unfold dump_returns, step_at.
  destruct (write_error w MODELO) as [e|] eqn:Hw.
  - rewrite (run_fit_dump_fails _ _ _ _ _ _ _ _ Hfit Hw),
      (setup_fit_dump_fails _ _ _ _ _ _ _ _ Hfit Hw).
    cbn [fst heap trace]. repeat split; [|discriminate].
    intros name e' Hin. rewrite <- (app_nil_r (fitted_heap _ _ _ _ _)).
    by apply Hsteps.
  - destruct (run_fit_ok _ _ _ _ _ _ _ Hfit Hw) as (before & after & Hb & Ha & ->).
    rewrite (setup_fit_ok _ _ _ _ _ _ _ Hfit Hw). cbn [fst heap trace].
    split; [by rewrite take_app_length'|].
    split; [rewrite length_app; by destruct (is_3d (selected w))|].
    split; [intros name e' Hin; by apply Hsteps|].
    intros _. apply in_or_app. left. cbn. tauto.
Qed.

(** *** Columns of the labelled copy and of the box plots *)

Lemma set_series_present name vals (l : list (string * list cell)) :
  existsb (String.eqb name) (map fst l) = true ->
  map fst (set_series name vals l) = map fst l.
Proof.
  induction l as [|[k v] l IH]; cbn; [discriminate|].
  destruct (String.eqb name k); cbn; [reflexivity|].
  intros H. by rewrite IH.
Qed.

Lemma set_series_absent name vals (l : list (string * list cell)) :
  existsb (String.eqb name) (map fst l) = false ->
  set_series name vals l = l ++ [(name, vals)].
Proof.
  induction l as [|[k v] l IH]; cbn; [reflexivity|].
  destruct (String.eqb name k); cbn; [discriminate|].
  intros H. by rewrite IH.
Qed.

(** On a table without a "cluster" column, labelling adds one numeric
    column, the last, and keeps the dtype of every other column. *)
Lemma select_dtypes_number_labelled table f3 :
  in_columns (Some "cluster") table = false ->
  select_dtypes_number (labelled table f3)
  = select_dtypes_number table ++ ["cluster"].
Proof.
  intros Hcol. unfold select_dtypes_number, columns, labelled; cbn [series dtypes].
  rewrite (set_series_absent _ _ _ Hcol), map_app, List.filter_app. cbn.
  f_equal. apply List.filter_ext_in. intros name Hin. unfold set_dtype.
  destruct (String.eqb_spec name "cluster") as [->|Hne]; [|reflexivity].
  unfold in_columns, columns in Hcol.
  assert (existsb (String.eqb "cluster") (map fst (series table)) = true) as E.
  { apply existsb_exists. exists "cluster". by rewrite String.eqb_refl. }
  congruence.
Qed.

Lemma map_imap_id {A B} (g : B -> A) (f : nat -> A -> B) (l : list A) :
  (forall i x, g (f i x) = x) -> map g (imap f l) = l.
Proof.
  revert f. induction l as [|x l IH]; intros f Hf; [reflexivity|].
  cbn. rewrite Hf. f_equal. apply IH. intros i y. apply Hf.
Qed.

Lemma map_bp_y_boxplots d hue n_colors :
  map bp_y (boxplots d hue n_colors) = take 3 (select_dtypes_number d).
Proof. unfold boxplots. by apply map_imap_id. Qed.

(** X10. In a run whose fit succeeds, the labelled copy has the columns of the
    table in their order; the labels are a new last column "cluster", or
    overwrite in place the column of that name if the table already has
    one (the table itself keeps its own). *)
Theorem df_clustered_columns `{!SklearnShapes L} w table f1 X1 f2 X2 f3 :
  fit_ok w table f1 X1 f2 X2 f3 ->
  exists d,
    frame_at (fst (run w)) (df_clustered script_globals) = Some d /\
    columns d = (if in_columns (Some "cluster") table
                 then columns table else columns table ++ ["cluster"]) /\
    frame_at (fst (run w)) (df script_globals) = Some table.
Proof.
  intros Hfit.
  destruct (run_fit_heap _ _ _ _ _ _ _ Hfit) as (extra & Hheap).
  exists (labelled table f3). unfold frame_at. rewrite Hheap.
  cbn [df_clustered df script_globals].
  rewrite !fitted_heap_lookup by lia. cbn [fitted_heap lookup list_lookup].
  split; [reflexivity|]. split; [|reflexivity].
  unfold columns, labelled, in_columns, columns; cbn [series].
  destruct (existsb _ _) eqn:E.
  - by apply set_series_present.
  - rewrite (set_series_absent _ _ _ E), map_app. reflexivity.
Qed.

(** X11. In a run that reaches a box-plot view (the fit succeeds and the
    dump returns) on a table without a "cluster" column, the view draws at
    most three box plots of the labelled copy, all against "cluster": of
    the first three columns of the table whose dtype is numeric (a column
    of dtype object is skipped, whatever it holds); when the table has
    fewer than three, the labels themselves are box-plotted as the next
    column. *)
Theorem boxplot_columns `{!SklearnShapes L} w table f1 X1 f2 X2 f3 :
  fit_ok w table f1 X1 f2 X2 f3 ->
  write_error w MODELO = None ->
  in_columns (Some "cluster") table = false ->
  selected w = "Boxplot por Cluster" \/ selected w = "Boxplot por Gênero" ->
  exists plots,
    figures (trace (fst (run w))) = [Subplots 1 3 (16, 5)%Z plots] /\
    map bp_y plots = take 3 (select_dtypes_number table ++ ["cluster"]) /\
    Forall (fun bp => bp_x bp = "cluster" /\ bp_data bp = labelled table f3) plots /\
    Forall (fun bp => bp_hue bp = if String.eqb (selected w) "Boxplot por Cluster"
                                  then "cluster" else "Gender") plots.
Proof.
  intros Hfit Hw Hcol Hsel.
  destruct (run_fit_ok _ _ _ _ _ _ _ Hfit Hw) as (before & after & Hb & Ha & ->).
  cbn [fst trace].
  rewrite !figures_app, figures_charts, (figures_plain _ Hb), (figures_plain _ Ha).
  pose proof (select_dtypes_number_labelled table f3 Hcol) as Hnum.
  assert (forall hue n, Forall (fun bp => bp_x bp = "cluster"
                                          /\ bp_data bp = labelled table f3)
                               (boxplots (labelled table f3) hue n)) as Hx.
  { intros hue n. unfold boxplots. apply Forall_lookup. intros i bp.
    rewrite list_lookup_imap. intros (col & _ & ->)%fmap_Some. by split. }
  assert (forall hue n, Forall (fun bp => bp_hue bp = hue)
                               (boxplots (labelled table f3) hue n)) as Hh.
  { intros hue n. unfold boxplots. apply Forall_lookup. intros i bp.
    rewrite list_lookup_imap. intros (col & _ & ->)%fmap_Some. reflexivity. }
  unfold view_chart.
  destruct Hsel as [->| ->]; cbn [String.eqb Ascii.eqb Bool.eqb];
    eexists; (split; [reflexivity|]);
    rewrite map_bp_y_boxplots, Hnum; auto.
Qed.

(** *** The 3-D views *)

(** X12. In a 3-D view of a run whose fit succeeds, [df_pca] has exactly
    the columns pca0, pca1, pca2, cluster, as many rows as the labelled
    copy, and the same cluster column: slicing off the clustering step
    keeps its labels, so both frames carry the labels of the one fit.  (A
    run in which the dump raised never reaches the view and has no
    [df_pca].) *)
Theorem df_pca_labels_agree `{!SklearnShapes L} w table f1 X1 f2 X2 f3 :
  fit_ok w table f1 X1 f2 X2 f3 ->
  is_3d (selected w) = true ->
  if dump_returns w then
    exists df_pca d,
      frame_at (fst (run w)) 5 = Some df_pca /\
      frame_at (fst (run w)) (df_clustered script_globals) = Some d /\
      columns df_pca = ["pca0"; "pca1"; "pca2"; "cluster"] /\
      nrows df_pca = nrows d /\
      getitem df_pca "cluster" = getitem d "cluster"
  else frame_at (fst (run w)) 5 = None.
Proof.
  intros Hfit H3d. unfold dump_returns.
  pose proof (fit_ok_shapes _ _ _ _ _ _ _ Hfit) as (Hrows & _).
  destruct (write_error w MODELO) as [e|] eqn:Hw.
  { by rewrite (run_fit_dump_fails _ _ _ _ _ _ _ _ Hfit Hw). }
  destruct (run_fit_ok _ _ _ _ _ _ _ Hfit Hw) as (before & after & _ & _ & ->).
  rewrite H3d. exists (df_pca_frame X2 f3), (labelled table f3).
  repeat split; try reflexivity; [exact Hrows|].
  unfold getitem, labelled; cbn [series]. by rewrite assoc_set_series_eq.
Qed.

End Proofs.

(** ** The executable instance has the documented shapes *)

Module DemoFacts.
Import Demo.

#[local] Open Scope list_scope.

Lemma ct_rows ts d f Xt :
  ct_fit_transform ts d = inr (f, Xt) -> length Xt = nrows d.
Proof.
  unfold ct_fit_transform. destruct (nrows d =? 0)%nat; [discriminate|].
  destruct (mapM _ _) as [rows|] eqn:E; [|discriminate].
  intros [= _ <-]. cbn. apply length_mapM in E. by rewrite length_seq in E.
Qed.

Lemma pca_shape n seed X f Xt :
  pca_fit_transform n seed X = inr (f, Xt) ->
  length Xt = length X /\ ncols Xt = n /\
  Forall (fun row => length row = n) Xt.
Proof.
  unfold pca_fit_transform.
  destruct (n <=? ncols X)%nat; cbn; [|discriminate].
  destruct (forallb _ X) eqn:E; cbn; [|discriminate].
  destruct (n <=? length X)%nat; [|discriminate].
  intros [= _ <-]. cbn. split; [apply length_map|]. split; [reflexivity|].
  apply Forall_fmap, Forall_forall. intros row Hrow. cbn.
  apply length_take_le, Nat.leb_le.
  rewrite forallb_forall in E. apply E. by apply list_elem_of_In.
Qed.

Lemma kmeans_labels k seed n_init X f :
  kmeans_fit k seed n_init X = inr f ->
  length (labels_ f) = length X /\
  Forall (fun z => (0 <= z < Z.of_nat k)%Z) (labels_ f).
Proof.
  unfold kmeans_fit.
  destruct (forallb _ X); cbn [negb]; [|discriminate].
  destruct (0 <? k)%nat eqn:Ek; cbn; [|discriminate].
  destruct (k <=? length X)%nat; [|discriminate].
  intros [= <-]. cbn. split; [apply length_imap|].
  apply Forall_lookup. intros i z. rewrite list_lookup_imap.
  intros (row & _ & ->)%fmap_Some.
  apply Nat.ltb_lt in Ek.
  pose proof (Nat.mod_upper_bound i k ltac:(lia)). lia.
Qed.

Lemma kmeans_centers k seed n_init X f :
  kmeans_fit k seed n_init X = inr f ->
  length (cluster_centers_ f) = k /\
  ncols (cluster_centers_ f) = ncols X /\
  Forall (fun c => length c = ncols X) (cluster_centers_ f).
Proof.
  unfold kmeans_fit.
  destruct (forallb _ X) eqn:E; cbn [negb]; [|discriminate].
  destruct (0 <? k)%nat; cbn; [|discriminate].
  destruct (k <=? length X)%nat eqn:Ek; [|discriminate].
  intros [= <-]. cbn. split; [apply length_take_le, Nat.leb_le, Ek|].
  split; [reflexivity|].
  apply Forall_forall. intros c Hc.
  rewrite forallb_forall in E. apply Nat.eqb_eq, E.
  apply list_elem_of_In. eapply subseteq_take, Hc.
Qed.

Lemma shapes : SklearnShapes Demo.sklearn.
Proof.
  constructor.
  - exact ct_rows.
  - exact pca_shape.
  - exact kmeans_labels.
  - exact kmeans_centers.
Qed.

(** The fit succeeds on the six customers, whatever the generator state
    and the selected view. *)
Lemma fit_customers seed choice :
  fit_ok (world_of seed choice) customers tt X1 tt X2 f3.
Proof. constructor; vm_compute; reflexivity. Qed.

End DemoFacts.

(** ** The claims on the six customers *)

Section Customers.
Import Demo.

#[local] Open Scope list_scope.

(** C1 on the six customers, Pairplot selected. *)
Lemma cluster_label_per_record_customers :
  fit_ok (world_of 0 0) customers tt X1 tt X2 f3 /\
  exists d,
    frame_at (fst (run (world_of 0 0))) (df_clustered script_globals) = Some d /\
    step_at (fst (run (world_of 0 0))) "pca" = Some (PCA 3 (Some RANDOM_STATE) (Some tt)) /\
    step_at (fst (run (world_of 0 0))) "clustering"
    = Some (KMeans 5 (Some RANDOM_STATE) 10 (Some f3)) /\
    nrows d = nrows customers /\
    (forall name, name <> "cluster" -> getitem d name = getitem customers name) /\
    getitem d "cluster" = inr (map CInt (labels_ f3)) /\
    length (labels_ f3) = nrows customers /\
    forall i, i < nrows customers ->
      exists z, labels_ f3 !! i = Some z /\ (0 <= z <= 4)%Z.
Proof.
  split; [constructor; vm_compute; reflexivity|].
  apply (@cluster_label_per_record sklearn DemoFacts.shapes
           (world_of 0 0) customers tt X1 tt X2 f3).
  constructor; vm_compute; reflexivity.
Defined.

(** C2 on the six customers: generator states 0 and 7, Pairplot and the
    3-D view with dispersion. *)
Lemma labels_deterministic_customers :
  files (world_of 0 0) !! DADOS = files (world_of 7 4) !! DADOS /\
  fitted_labels (fst (run (world_of 0 0))) = fitted_labels (fst (run (world_of 7 4))) /\
  frame_at (fst (run (world_of 0 0))) (df_clustered script_globals)
  = frame_at (fst (run (world_of 7 4))) (df_clustered script_globals).
Proof.
  split; [reflexivity|].
  apply (@labels_deterministic sklearn (world_of 0 0) (world_of 7 4)).
  reflexivity.
Defined.

(** Against C3 as stated: on the six customers the view without dispersion
    draws scatter points too, every record in each of its five series,
    where the view with dispersion draws each record in one series; the
    two charts differ in their series, not only in an overlay. *)
Lemma sem_dispersao_draws_points :
  figures (trace (fst (run (world_of 0 3))))
  = [Axes3D (10, 7)%Z (map (cluster_scatter X2 f3 false) (seq 0 5))
            "pca0" "pca1" "pca2"] /\
  figures (trace (fst (run (world_of 0 4))))
  = [Axes3D (10, 7)%Z
            (map (cluster_scatter X2 f3 true) (seq 0 5)
             ++ [centroid_scatter (cluster_centers_ f3)])
            "pca0" "pca1" "pca2"] /\
  map (fun sc => length (points sc)) (map (cluster_scatter X2 f3 false) (seq 0 5))
  = [6; 6; 6; 6; 6] /\
  map (fun sc => length (points sc)) (map (cluster_scatter X2 f3 true) (seq 0 5))
  = [2; 1; 1; 1; 1].
Proof. repeat split; vm_compute; reflexivity. Qed.

(** C3 as the code has it, on the six customers: the two 3-D views. *)
Lemma views_3d_series_customers :
  fit_ok (world_of 0 3) customers tt X1 tt X2 f3 /\
  files (world_of 0 4) !! DADOS = Some customers /\
  write_error (world_of 0 3) MODELO = None /\
  write_error (world_of 0 4) MODELO = None /\
  selected (world_of 0 3) = "Cluster em 3D (sem dispersão)" /\
  selected (world_of 0 4) = "Cluster em 3D (com dispersão)" /\
  frame_at (fst (run (world_of 0 3))) 5 = Some (df_pca_frame X2 f3) /\
  frame_at (fst (run (world_of 0 4))) 5 = Some (df_pca_frame X2 f3) /\
  exists ss1 ss2,
    figures (trace (fst (run (world_of 0 3))))
    = [Axes3D (10, 7)%Z ss1 "pca0" "pca1" "pca2"] /\
    figures (trace (fst (run (world_of 0 4))))
    = [Axes3D (10, 7)%Z (ss2 ++ [centroid_scatter (cluster_centers_ f3)])
              "pca0" "pca1" "pca2"] /\
    length ss1 = 5 /\ length ss2 = 5 /\
    (forall i, i < 5 ->
       exists sc1 sc2,
         ss1 !! i = Some sc1 /\ ss2 !! i = Some sc2 /\
         sc_color sc1 = palette_color "Set2" 5 i /\
         sc_color sc2 = palette_color "Set2" 5 i /\
         sc_label sc1 = Some ("Cluster " +:+ str_nat i) /\
         sc_label sc2 = Some ("Cluster " +:+ str_nat i) /\
         points sc1 = map row_point X2 /\
         points sc2
         = mask_list (map (fun z => (z =? Z.of_nat i)%Z) (labels_ f3))
                     (map row_point X2)) /\
    concat (map points ss1) = concat (repeat (map row_point X2) 5) /\
    Permutation (concat (map points ss2)) (map row_point X2).
Proof.
  split; [constructor; vm_compute; reflexivity|].
  do 5 (split; [reflexivity|]).
  apply (@views_3d_series sklearn DemoFacts.shapes
           (world_of 0 3) (world_of 0 4) customers tt X1 tt X2 f3).
  - constructor; vm_compute; reflexivity.
  - reflexivity.
  - reflexivity.
  - reflexivity.
  - reflexivity.
  - reflexivity.
Defined.

(** Against C4 as stated: with the 3-D view without dispersion selected,
    the run on the six customers fits a step twice. *)
Lemma refit_in_3d_view :
  ~ List.NoDup (fit_log (fst (run (world_of 0 3)))).
Proof.
  assert (fit_log (fst (run (world_of 0 3))) = [1; 2; 3; 1; 2]) as ->
    by (vm_compute; reflexivity).
  intros H. inversion H as [|x l Hnot _]. apply Hnot. cbn. tauto.
Qed.

(** C4 as the code has it, on the six customers with that view. *)
Lemma fits_per_run_customers :
  fit_ok (world_of 0 3) customers tt X1 tt X2 f3 /\
  fit_log (fst (setup (initial (world_of 0 3)))) = map snd (pipeline script_globals) /\
  fit_log (fst (run (world_of 0 3)))
  = map snd (pipeline script_globals)
    ++ (if dump_returns (world_of 0 3) && is_3d (selected (world_of 0 3))
        then map snd (removelast (pipeline script_globals)) else []) /\
  forall l, assoc "clustering" (pipeline script_globals) = Some l ->
            count_occ Nat.eq_dec (fit_log (fst (run (world_of 0 3)))) l = 1.
Proof.
  split; [constructor; vm_compute; reflexivity|].
  apply (@fits_per_run sklearn DemoFacts.shapes
           (world_of 0 3) customers tt X1 tt X2 f3).
  constructor; vm_compute; reflexivity.
Defined.

(** C5 on the six customers. *)
Lemma reduced_coordinates_3_customers :
  fit_ok (world_of 0 4) customers tt X1 tt X2 f3 /\
  exists s' X,
    Pipeline_fit_transform (removelast (pipeline script_globals))
                           (df script_globals) (fst (setup (initial (world_of 0 4))))
    = (s', inr X) /\
    length X = nrows customers /\
    Forall (fun row => length row = 3) X /\
    (is_3d (selected (world_of 0 4)) = true ->
     frame_at (fst (run (world_of 0 4))) 5
     = if dump_returns (world_of 0 4) then Some (df_pca_frame X f3) else None).
Proof.
  split; [constructor; vm_compute; reflexivity|].
  apply (@reduced_coordinates_3 sklearn DemoFacts.shapes
           (world_of 0 4) customers tt X1 tt X2 f3).
  constructor; vm_compute; reflexivity.
Defined.

(** C6 on the unlabelled table: "cluster" is missing, "Gender" is there. *)
Lemma missing_column_guard_customers :
  heap only_customers !! 0 = Some (ODataFrame customers) /\
  in_columns (Some "cluster") customers = false /\
  visualizar_cluster 0 ["Age"; "Annual Income (k$)"; "Spending Score (1-100)"]
                     5 None false (Some "cluster") only_customers
  = ({| env := world_of 0 0; heap := [ODataFrame customers];
        trace := [st_error "Coluna 'cluster' não encontrada no dataframe."];
        fit_log := [] |}, inr tt) /\
  in_columns (Some "Gender") customers = true /\
  errors (trace (fst (visualizar_cluster 0
                        ["Age"; "Annual Income (k$)"; "Spending Score (1-100)"]
                        5 None false (Some "Gender") only_customers)))
  = [].
Proof.
  split; [reflexivity|]. split; [reflexivity|]. split.
  - apply (proj1 (@missing_column_guard sklearn 0 customers
                    ["Age"; "Annual Income (k$)"; "Spending Score (1-100)"]
                    5 None false (Some "cluster") only_customers eq_refl)).
    reflexivity.
  - split; [reflexivity|].
    apply (proj2 (@missing_column_guard sklearn 0 customers
                    ["Age"; "Annual Income (k$)"; "Spending Score (1-100)"]
                    5 None false (Some "Gender") only_customers eq_refl)).
    reflexivity.
Defined.

(** C7 on a name that is not an option. *)
Lemma unrecognized_view_falls_through_histograma :
  ~ In "Histograma" opcoes /\
  visualizar script_globals "Histograma" only_customers = (only_customers, inr tt).
Proof.
  assert (~ In "Histograma" opcoes) as H
    by (cbn; intros [H|[H|[H|[H|[H|[]]]]]]; discriminate H).
  split; [exact H|].
  apply (@unrecognized_view_falls_through sklearn script_globals "Histograma"
           only_customers H).
Defined.

(** Against C8 as stated: on the six customers with the directory of the
    model file missing, the fit succeeds, the dump raises and nothing is
    written. *)
Lemma no_dump_without_modelos :
  fit_ok (world_no_modelos 0) customers tt X1 tt X2 f3 /\
  snd (run (world_no_modelos 0))
  = inl (FileNotFoundError "modelos/pipeline_preprocessing_pca_clustering.pkl") /\
  dumps (trace (fst (run (world_no_modelos 0)))) = [].
Proof.
  split; [constructor; vm_compute; reflexivity|].
  split; vm_compute; reflexivity.
Qed.

(** C8 as the code has it, on the six customers: box plots by gender
    selected and the model file writable; the directory missing; and the
    four customers, on which the clustering raises. *)
Lemma pipeline_dumped_customers :
  (fit_ok (world_of 0 2) customers tt X1 tt X2 f3 /\
   write_error (world_of 0 2) "modelos/pipeline_preprocessing_pca_clustering.pkl"
   = None /\
   exists pre post,
     trace (fst (run (world_of 0 2)))
     = pre ++ joblib_dump (fitted_steps tt tt f3)
                          "modelos/pipeline_preprocessing_pca_clustering.pkl"
              :: post /\
     dumps pre = [] /\ figures pre = [] /\ dumps post = [] /\
     fit_log (fst (setup (initial (world_of 0 2))))
     = map snd (pipeline script_globals)) /\
  (fit_ok (world_no_modelos 2) customers tt X1 tt X2 f3 /\
   snd (run (world_no_modelos 2))
   = inl (FileNotFoundError "modelos/pipeline_preprocessing_pca_clustering.pkl") /\
   dumps (trace (fst (run (world_no_modelos 2)))) = [] /\
   figures (trace (fst (run (world_no_modelos 2)))) = [] /\
   fit_log (fst (run (world_no_modelos 2))) = map snd (pipeline script_globals)) /\
  ((exists e, snd (run (world_with four_customers 2)) = inl e) /\
   dumps (trace (fst (run (world_with four_customers 2)))) = [] /\
   figures (trace (fst (run (world_with four_customers 2)))) = []).
Proof.
  assert (fit_ok (world_of 0 2) customers tt X1 tt X2 f3) as Hfit
    by (constructor; vm_compute; reflexivity).
  assert (fit_ok (world_no_modelos 2) customers tt X1 tt X2 f3) as Hfit'
    by (constructor; vm_compute; reflexivity).
  split; [|split].
  - split; [exact Hfit|]. split; [reflexivity|].
    exact (proj1 (@pipeline_dumped sklearn DemoFacts.shapes (world_of 0 2))
             customers tt X1 tt X2 f3 Hfit eq_refl).
  - split; [exact Hfit'|].
    exact (proj1 (proj2 (@pipeline_dumped sklearn DemoFacts.shapes
                           (world_no_modelos 2)))
             customers tt X1 tt X2 f3 _ Hfit' eq_refl).
  - apply (proj2 (proj2 (@pipeline_dumped sklearn DemoFacts.shapes
                           (world_with four_customers 2)))).
    intros table f1 X1' f2 X2' f3' [Hfile H1 H2 H3].
    vm_compute in Hfile. injection Hfile as <-.
    vm_compute in H1. injection H1 as <- <-.
    vm_compute in H2. injection H2 as <- <-.
    vm_compute in H3. discriminate H3.
Defined.

(** C9 on the six customers, 3-D view with dispersion selected. *)
Lemma df_immutable_customers :
  files (world_of 0 4) !! DADOS = Some customers /\
  frame_at (fst (run (world_of 0 4))) (df script_globals) = Some customers /\
  forall s g, setup (initial (world_of 0 4)) = (s, inr g) ->
    g = script_globals /\
    df_clustered g <> df g /\
    frame_at s (df g) = Some customers /\
    exists d, frame_at s (df_clustered g) = Some d /\
              in_columns (Some "cluster") d = true.
Proof.
  split; [reflexivity|].
  apply (@df_immutable sklearn (world_of 0 4) customers).
  reflexivity.
Defined.

(** C10 on the six customers, 3-D view without dispersion selected. *)
Lemma missing_column_unreachable_customers :
  errors (trace (fst (run (world_of 0 3)))) = [] /\
  fit_ok (world_of 0 3) customers tt X1 tt X2 f3 /\
  is_3d (selected (world_of 0 3)) = true /\
  snd (run (world_of 0 3)) = inr script_globals /\
  exists df_pca fig,
    frame_at (fst (run (world_of 0 3))) 5 = Some df_pca /\
    in_columns (Some "cluster") df_pca = true /\
    figures (trace (fst (run (world_of 0 3)))) = [fig].
Proof.
  pose proof (@missing_column_unreachable sklearn DemoFacts.shapes (world_of 0 3))
    as [Herr Hchart].
  split; [exact Herr|].
  split; [constructor; vm_compute; reflexivity|].
  split; [reflexivity|].
  apply (Hchart customers tt X1 tt X2 f3); [|reflexivity].
  constructor; vm_compute; reflexivity.
Defined.

End Customers.

(** ** The further properties on concrete inputs *)

Section MoreCustomers.
Import Demo.

#[local] Open Scope list_scope.

(** [visualizar_cluster] with dispersion on the labelled customers, of
    which the last has label 7, with a fourth name in [colunas] and two
    centroids. *)
Lemma visualizar_cluster_renders_customers :
  let c := {| rows := [[19; 15; 39]; [21; 15; 81]]%float; ncols := 3 |} in
  let lab := map CInt [0; 1; 2; 3; 4; 7]%Z in
  let cx := map CInt [19; 21; 20; 23; 31; 22]%Z in
  let cy := map CInt [15; 15; 16; 16; 17; 17]%Z in
  let cz := map CInt [39; 81; 6; 77; 40; 76]%Z in
  heap only_clustered_customers !! 0 = Some (ODataFrame clustered_customers) /\
  getitem clustered_customers "cluster" = inr lab /\
  (3 <= ncols c /\ Forall (fun row => 3 <= length row) c) /\
  exists ss,
    visualizar_cluster 0
      ["Age"; "Annual Income (k$)"; "Spending Score (1-100)"; "Gender"]
      5 (Some c) true (Some "cluster") only_clustered_customers
    = ({| env := world_of 0 0; heap := [ODataFrame clustered_customers];
          trace := [st_pyplot
                      (Axes3D (10, 7)%Z (ss ++ [centroid_scatter c])
                         "Age" "Annual Income (k$)" "Spending Score (1-100)")];
          fit_log := [] |}, inr tt) /\
    length ss = 5 /\
    forall i, i < 5 ->
      exists sc,
        ss !! i = Some sc /\
        sc_color sc = palette_color "Set2" 5 i /\
        sc_label sc = Some ("Cluster " +:+ str_nat i) /\
        sc_marker sc = None /\ sc_s sc = None /\
        let rows_of {A} (col : list A) :=
          mask_list (map (cell_eq_int (Z.of_nat i)) lab) col in
        sc_xs sc = rows_of cx /\ sc_ys sc = rows_of cy /\ sc_zs sc = rows_of cz.
Proof.
  intros c lab cx cy cz.
  assert (3 <= ncols c /\ Forall (fun row : list float => 3 <= length row) c)
    as Hc by (split; [cbn; lia|repeat constructor]).
  split; [reflexivity|]. split; [reflexivity|]. split; [exact Hc|].
  apply (@visualizar_cluster_renders sklearn 0 clustered_customers
           "Age" "Annual Income (k$)" "Spending Score (1-100)" ["Gender"]
           5 (Some c) true "cluster" lab cx cy cz only_clustered_customers);
    first [reflexivity | exact Hc].
Defined.

(** [visualizar_cluster] with two names in [colunas]. *)
Lemma visualizar_cluster_needs_three_columns_customers :
  heap only_clustered_customers !! 0 = Some (ODataFrame clustered_customers) /\
  in_columns (Some "cluster") clustered_customers = true /\
  length ["Age"; "Annual Income (k$)"] < 3 /\
  exists e,
    visualizar_cluster 0 ["Age"; "Annual Income (k$)"] 5 None true
                       (Some "cluster") only_clustered_customers
    = (only_clustered_customers, inl e).
Proof.
  split; [reflexivity|]. split; [reflexivity|]. split; [cbn; lia|].
  apply (@visualizar_cluster_needs_three_columns sklearn 0 clustered_customers
           ["Age"; "Annual Income (k$)"] 5 None true (Some "cluster")
           only_clustered_customers);
    [reflexivity | reflexivity | cbn; lia].
Defined.

(** [visualizar_cluster] with centroids of shape (0, 2): no row, two
    columns. *)
Lemma visualizar_cluster_needs_wide_centroids_customers :
  let c := {| rows := []; ncols := 2 |} in
  heap only_clustered_customers !! 0 = Some (ODataFrame clustered_customers) /\
  in_columns (Some "cluster") clustered_customers = true /\
  (ncols c < 3 \/ Exists (fun row => length row < 3) c) /\
  exists e,
    visualizar_cluster 0 ["Age"; "Annual Income (k$)"; "Spending Score (1-100)"]
                       5 (Some c) true (Some "cluster")
                       only_clustered_customers
    = (only_clustered_customers, inl e).
Proof.
  intros c.
  assert (ncols c < 3 \/ Exists (fun row : list float => length row < 3) c)
    as Hc by (left; cbn; lia).
  split; [reflexivity|]. split; [reflexivity|]. split; [exact Hc|].
  apply (@visualizar_cluster_needs_wide_centroids sklearn 0 clustered_customers
           ["Age"; "Annual Income (k$)"; "Spending Score (1-100)"]
           5 c true (Some "cluster") only_clustered_customers);
    [reflexivity | reflexivity | exact Hc].
Defined.

(** [visualizar_cluster] on the columns of [df_pca], which the labelled
    customers do not have. *)
Lemma visualizar_cluster_missing_plotted_column_customers :
  heap only_clustered_customers !! 0 = Some (ODataFrame clustered_customers) /\
  in_columns (Some "cluster") clustered_customers = true /\
  in_columns (Some "pca0") clustered_customers = false /\
  0 < 5 /\
  visualizar_cluster 0 ["pca0"; "pca1"; "pca2"] 5 None false (Some "cluster")
                     only_clustered_customers
  = (only_clustered_customers, inl (KeyError "pca0")).
Proof.
  split; [reflexivity|]. split; [reflexivity|]. split; [reflexivity|].
  split; [lia|].
  apply (@visualizar_cluster_missing_plotted_column sklearn 0 clustered_customers
           "pca0" ["pca1"; "pca2"] 5 None false (Some "cluster")
           only_clustered_customers);
    [reflexivity | reflexivity | reflexivity | lia].
Defined.

(** The run without the input file. *)
Lemma run_without_input_file_demo :
  files world_without_file !! DADOS = None /\
  run world_without_file
  = ({| env := world_without_file; heap := [];
        trace := [st_markdown CSS true; environ_set "OMP_NUM_THREADS" "1"];
        fit_log := [] |},
     inl (FileNotFoundError DADOS)).
Proof.
  split; [reflexivity|].
  apply (@run_without_input_file sklearn world_without_file).
  reflexivity.
Defined.

(** [setup] raising on the four customers, where k-means refuses five
    clusters. *)
Lemma setup_failure_stops_run_four_customers :
  exists s e,
    setup (initial (world_with four_customers 1)) = (s, inl e) /\
    run (world_with four_customers 1) = (s, inl e) /\
    trace (fst (run (world_with four_customers 1)))
    = [st_markdown CSS true; environ_set "OMP_NUM_THREADS" "1"].
Proof.
  eexists _, _. split; [vm_compute; reflexivity|].
  apply (@setup_failure_stops_run sklearn (world_with four_customers 1)).
  vm_compute. reflexivity.
Defined.

(** The first failure on the four customers is that of k-means, the third
    step. *)
Lemma fit_raises_first_failure_four_customers :
  files (world_with four_customers 1) !! DADOS = Some four_customers /\
  first_failure four_customers
  = Some (ValueError "n_samples should be >= n_clusters", 3) /\
  snd (run (world_with four_customers 1))
  = inl (ValueError "n_samples should be >= n_clusters") /\
  fit_log (fst (run (world_with four_customers 1)))
  = map snd (take 3 (pipeline script_globals)) /\
  fitted_labels (fst (run (world_with four_customers 1))) = None.
Proof.
  split; [reflexivity|]. split; [vm_compute; reflexivity|].
  apply (@fit_raises_first_failure sklearn (world_with four_customers 1)
           four_customers (ValueError "n_samples should be >= n_clusters") 3).
  - reflexivity.
  - vm_compute. reflexivity.
Defined.

(** One chart in the run on the six customers with the box plots by
    cluster. *)
Lemma one_chart_per_run_customers :
  fit_ok (world_of 0 1) customers tt X1 tt X2 f3 /\
  write_error (world_of 0 1) MODELO = None /\
  snd (run (world_of 0 1)) = inr script_globals /\
  In (selected (world_of 0 1)) opcoes /\
  exists fig,
    view_chart (labelled customers f3) X2 f3 (selected (world_of 0 1)) = Some fig /\
    figures (trace (fst (run (world_of 0 1)))) = [fig].
Proof.
  split; [constructor; vm_compute; reflexivity|]. split; [reflexivity|].
  apply (@one_chart_per_run sklearn DemoFacts.shapes
           (world_of 0 1) customers tt X1 tt X2 f3).
  - constructor; vm_compute; reflexivity.
  - reflexivity.
Defined.

(** The store after the 3-D view with dispersion on the six customers. *)
Lemma store_after_view_customers :
  fit_ok (world_of 0 4) customers tt X1 tt X2 f3 /\
  take 5 (heap (fst (run (world_of 0 4)))) = heap (fst (setup (initial (world_of 0 4)))) /\
  length (heap (fst (run (world_of 0 4))))
  = (if dump_returns (world_of 0 4) && is_3d (selected (world_of 0 4))
     then 6 else 5) /\
  (forall name e, In (name, e) (fitted_steps tt tt f3) ->
                  step_at (fst (run (world_of 0 4))) name = Some e) /\
  (dump_returns (world_of 0 4) = true ->
   In (joblib_dump (fitted_steps tt tt f3) MODELO)
      (trace (fst (run (world_of 0 4))))).
Proof.
  split; [constructor; vm_compute; reflexivity|].
  apply (@store_after_view sklearn DemoFacts.shapes
           (world_of 0 4) customers tt X1 tt X2 f3).
  constructor; vm_compute; reflexivity.
Defined.

(** The columns of the labelled six customers. *)
Lemma df_clustered_columns_customers :
  fit_ok (world_of 0 0) customers tt X1 tt X2 f3 /\
  exists d,
    frame_at (fst (run (world_of 0 0))) (df_clustered script_globals) = Some d /\
    columns d = (if in_columns (Some "cluster") customers
                 then columns customers else columns customers ++ ["cluster"]) /\
    frame_at (fst (run (world_of 0 0))) (df script_globals) = Some customers.
Proof.
  split; [constructor; vm_compute; reflexivity|].
  apply (@df_clustered_columns sklearn DemoFacts.shapes
           (world_of 0 0) customers tt X1 tt X2 f3).
  constructor; vm_compute; reflexivity.
Defined.

(** The box plots by gender of the six customers behind their card
    numbers: the first column holds integers and has dtype object, so the
    box plots are of the three columns after it. *)
Lemma boxplot_columns_customers :
  let w := world_with card_customers 2 in
  fit_ok w card_customers tt X1 tt X2 f3 /\
  write_error w MODELO = None /\
  in_columns (Some "cluster") card_customers = false /\
  (selected w = "Boxplot por Cluster" \/ selected w = "Boxplot por Gênero") /\
  take 3 (select_dtypes_number card_customers ++ ["cluster"])
  = ["Age"; "Annual Income (k$)"; "Spending Score (1-100)"] /\
  exists plots,
    figures (trace (fst (run w))) = [Subplots 1 3 (16, 5)%Z plots] /\
    map bp_y plots = take 3 (select_dtypes_number card_customers ++ ["cluster"]) /\
    Forall (fun bp => bp_x bp = "cluster"
                      /\ bp_data bp = labelled card_customers f3) plots /\
    Forall (fun bp => bp_hue bp
                      = if String.eqb (selected w) "Boxplot por Cluster"
                        then "cluster" else "Gender") plots.
Proof.
  intros w.
  assert (fit_ok w card_customers tt X1 tt X2 f3) as Hfit
    by (constructor; vm_compute; reflexivity).
  split; [exact Hfit|]. split; [reflexivity|]. split; [reflexivity|].
  split; [right; reflexivity|]. split; [reflexivity|].
  apply (@boxplot_columns sklearn DemoFacts.shapes w card_customers tt X1 tt X2 f3).
  - exact Hfit.
  - reflexivity.
  - reflexivity.
  - right. reflexivity.
Defined.

(** [df_pca] and the labelled copy in the 3-D view without dispersion. *)
Lemma df_pca_labels_agree_customers :
  fit_ok (world_of 0 3) customers tt X1 tt X2 f3 /\
  is_3d (selected (world_of 0 3)) = true /\
  exists df_pca d,
    frame_at (fst (run (world_of 0 3))) 5 = Some df_pca /\
    frame_at (fst (run (world_of 0 3))) (df_clustered script_globals) = Some d /\
    columns df_pca = ["pca0"; "pca1"; "pca2"; "cluster"] /\
    nrows df_pca = nrows d /\
    getitem df_pca "cluster" = getitem d "cluster".
Proof.
  split; [constructor; vm_compute; reflexivity|]. split; [reflexivity|].
  apply (@df_pca_labels_agree sklearn DemoFacts.shapes
           (world_of 0 3) customers tt X1 tt X2 f3).
  - constructor; vm_compute; reflexivity.
  - reflexivity.
Defined.

End MoreCustomers.

(** ** Checks on concrete inputs *)

Section Checks.
Import Demo.

#[local] Open Scope list_scope.

Example setitem_appends :
  setitem {| nrows := 2; series := [("Age", [CInt 19; CInt 21])];
             dtypes := fun _ => int64 |}
          "cluster" int32 [CInt 3; CInt 0]
  = inr {| nrows := 2;
           series := [("Age", [CInt 19; CInt 21]); ("cluster", [CInt 3; CInt 0])];
           dtypes := set_dtype "cluster" int32 (fun _ => int64) |}.
Proof. reflexivity. Qed.

Example setitem_replaces :
  setitem {| nrows := 1; series := [("cluster", [CInt 9]); ("Age", [CInt 19])];
             dtypes := fun _ => int64 |}
          "cluster" int32 [CInt 3]
  = inr {| nrows := 1; series := [("cluster", [CInt 3]); ("Age", [CInt 19])];
           dtypes := set_dtype "cluster" int32 (fun _ => int64) |}.
Proof. reflexivity. Qed.

Example setitem_length_mismatch :
  setitem {| nrows := 2; series := [("Age", [CInt 19; CInt 21])];
             dtypes := fun _ => int64 |}
          "cluster" int32 [CInt 3]
  = inl (ValueError "Length of values does not match length of index").
Proof. reflexivity. Qed.

Example DataFrame_of_array_three_columns :
  DataFrame_of_array {| rows := [[1%float; 2%float; 3%float]]; ncols := 3 |}
    (map (fun i => "pca" +:+ str_nat i) (seq 0 3))
  = inr {| nrows := 1;
           series := [("pca0", [CFloat 1]); ("pca1", [CFloat 2]); ("pca2", [CFloat 3])];
           dtypes := fun _ => float64 |}.
Proof. reflexivity. Qed.

Example DataFrame_of_array_wrong_width :
  DataFrame_of_array {| rows := [[1%float; 2%float]]; ncols := 2 |}
                     ["pca0"; "pca1"; "pca2"]
  = inl (ValueError "Shape of passed values does not match the columns").
Proof. reflexivity. Qed.

(** An array of shape (0, 2) has no third column, and does not make a
    frame of three columns. *)
Example array_column_no_rows :
  array_column 2 {| rows := []; ncols := 2 |} = inl IndexError /\
  array_column 1 {| rows := []; ncols := 2 |} = inr [] /\
  DataFrame_of_array {| rows := []; ncols := 2 |} ["pca0"; "pca1"; "pca2"]
  = inl (ValueError "Shape of passed values does not match the columns").
Proof. repeat split. Qed.

Example boolean_index_cluster_1 :
  boolean_index
    {| nrows := 3; series := [("pca0", [CFloat 1; CFloat 2; CFloat 3]);
                              ("cluster", [CInt 1; CInt 0; CInt 1])];
       dtypes := set_dtype "cluster" int32 (fun _ => float64) |}
    (map (cell_eq_int 1) [CInt 1; CInt 0; CInt 1])
  = {| nrows := 2; series := [("pca0", [CFloat 1; CFloat 3]);
                              ("cluster", [CInt 1; CInt 1])];
       dtypes := set_dtype "cluster" int32 (fun _ => float64) |}.
Proof. reflexivity. Qed.

(** A column of integers with dtype object is not numeric; the labels
    are. *)
Example select_dtypes_number_card_customers :
  select_dtypes_number card_customers
  = ["Age"; "Annual Income (k$)"; "Spending Score (1-100)"] /\
  select_dtypes_number (labelled customers f3)
  = ["Age"; "Annual Income (k$)"; "Spending Score (1-100)"; "cluster"].
Proof. split; reflexivity. Qed.

(** With the directory of the model file missing, every view ends at the
    dump: the steps are fitted, nothing is written or drawn. *)
Example no_modelos_directory :
  map (fun choice => snd (run (world_no_modelos choice))) (seq 0 5)
  = repeat (inl (FileNotFoundError MODELO)) 5 /\
  map (fun choice => trace (fst (run (world_no_modelos choice)))) (seq 0 5)
  = repeat [st_markdown CSS true; environ_set "OMP_NUM_THREADS" "1"] 5 /\
  map (fun choice => fit_log (fst (run (world_no_modelos choice)))) (seq 0 5)
  = repeat [1; 2; 3] 5.
Proof. repeat split; vm_compute; reflexivity. Qed.

(** Called with the default [coluna_clusters=None], the guard fires. *)
Example visualizar_cluster_default_column :
  trace (fst (visualizar_cluster 0 ["Age"; "Annual Income (k$)"; "Spending Score (1-100)"]
                5 None false None only_customers))
  = [st_error "Coluna 'None' não encontrada no dataframe."].
Proof. reflexivity. Qed.

Example customers_labels :
  fitted_labels (fst (run (world_of 0 0))) = Some [0; 1; 2; 3; 4; 0]%Z.
Proof. vm_compute. reflexivity. Qed.

Example customers_fits_pairplot :
  fit_log (fst (run (world_of 0 0))) = [1; 2; 3].
Proof. vm_compute. reflexivity. Qed.

Example customers_fits_3d :
  fit_log (fst (run (world_of 0 4))) = [1; 2; 3; 1; 2].
Proof. vm_compute. reflexivity. Qed.

Example customers_one_chart_per_view :
  map (fun choice => length (figures (trace (fst (run (world_of 0 choice))))))
      (seq 0 5)
  = [1; 1; 1; 1; 1].
Proof. vm_compute. reflexivity. Qed.

(** With no input file the run stops at [pd.read_csv]: nothing is fitted,
    dumped or drawn. *)
Example no_input_file :
  run world_without_file
  = ({| env := world_without_file;
        heap := [];
        trace := [st_markdown CSS true; environ_set "OMP_NUM_THREADS" "1"];
        fit_log := [] |},
     inl (FileNotFoundError DADOS)).
Proof. reflexivity. Qed.

End Checks.
